(** * Steam price tracker: change detection, notification gate and history

    A shallow embedding of [steam_checker.py] (module [SteamChecker]) and of
    its earlier variant [api-steam.py] (module [ApiSteam]).

    What the scripts get from the outside world is an explicit input of the
    model: the outcome of reading the history file, of each HTTP request and
    of each reading of the clock.  Logging and [time.sleep] change nothing
    that the scripts read back and are left out. *)

From Stdlib Require Import ZArith String List Bool Lia Sorted.
From stdpp Require Import base gmap strings list fin_maps.

Local Open Scope string_scope.
Local Open Scope Z_scope.

(** ** Exceptions *)

(** The exceptions that the library calls of the scripts raise. *)
Inductive exn : Type :=
  | ConnectionError      (* requests: no connection, time-out, bad URL *)
  | HTTPError            (* requests: [raise_for_status] *)
  | MissingSchema        (* requests: a URL without [http://] *)
  | LocationParseError   (* urllib3: a host name that cannot be parsed *)
  | RequestsJSONDecodeError  (* requests: [response.json()], body is not JSON *)
  | JSONDecodeError      (* json: [json.load] on a malformed document *)
  | OSError              (* [open]: permissions, directory in place of file *)
  | UnicodeDecodeError   (* text file whose bytes are not valid in its encoding *)
  | KeyError (key : string)
  | TypeError.

(** The classes that the [except] clauses of the scripts name. *)
Inductive exn_class : Type :=
  | RequestException
  | JSONDecodeErrorClass
  | IOError
  | KeyErrorClass
  | ExceptionClass.

(** [isinstance e c]: Python's class hierarchy.  [RequestException] derives
    from [IOError]; [JSONDecodeError] and [UnicodeDecodeError] both derive
    from [ValueError], and neither from the other; urllib3's
    [LocationParseError] is a [ValueError] too, and no [RequestException]. *)
Definition isinstance (e : exn) (c : exn_class) : bool :=
  match c, e with
  | ExceptionClass, _ => true
  | RequestException,
    (ConnectionError | HTTPError | MissingSchema | RequestsJSONDecodeError) => true
  | IOError,
    (ConnectionError | HTTPError | MissingSchema | RequestsJSONDecodeError
     | OSError) => true
  | JSONDecodeErrorClass, (JSONDecodeError | RequestsJSONDecodeError) => true
  | KeyErrorClass, KeyError _ => true
  | _, _ => false
  end.

(** An [except (c1, c2, ...)] clause. *)
Definition caught_by (clause : list exn_class) (e : exn) : bool :=
  existsb (isinstance e) clause.

Inductive result (A : Type) : Type :=
  | Ok (a : A)
  | Raise (e : exn).
Arguments Ok {A} a.
Arguments Raise {A} e.

(** ** A state monad in which a raised exception keeps the mutations made
    before it, as in Python. *)

Definition M (St A : Type) : Type := St -> St * result A.

Definition ret {St A} (a : A) : M St A := fun s => (s, Ok a).

Definition bind {St A B} (m : M St A) (k : A -> M St B) : M St B :=
  fun s =>
    match m s with
    | (s', Ok a) => k a s'
    | (s', Raise e) => (s', Raise e)
    end.

Definition raise {St A} (e : exn) : M St A := fun s => (s, Raise e).

Definition lift {St A} (r : result A) : M St A := fun s => (s, r).

Definition modify {St} (f : St -> St) : M St unit := fun s => (f s, Ok tt).

Definition gets {St A} (f : St -> A) : M St A := fun s => (s, Ok (f s)).

(** [try: body except clause: handler], one handler after the other; an
    exception that no clause names propagates. *)
Fixpoint pick_handler {St A} (e : exn)
    (handlers : list (list exn_class * M St A)) : M St A :=
  match handlers with
  | [] => raise e
  | (clause, h) :: rest =>
      if caught_by clause e then h else pick_handler e rest
  end.

Definition try_except {St A} (body : M St A)
    (handlers : list (list exn_class * M St A)) : M St A :=
  fun s =>
    match body s with
    | (s', Ok a) => (s', Ok a)
    | (s', Raise e) => pick_handler e handlers s'
    end.

Declare Scope py_scope.
Delimit Scope py_scope with py.
Notation "x <- c1 ;; c2" := (bind c1 (fun x => c2))
  (at level 100, c1 at next level, right associativity) : py_scope.
Notation "c1 ;;; c2" := (bind c1 (fun _ => c2))
  (at level 100, right associativity) : py_scope.

(** ** Data *)

(** [price_info = app_data["price_overview"]], a JSON object: each key may
    be missing. *)
Record PriceInfo : Type := {
  final : option Z;
  final_formatted : option string;
  pi_discount_percent : option Z;
  initial_formatted : option string
}.

(** [app_data = data[app_id]["data"]]. *)
Record AppData : Type := {
  is_free : option bool;
  price_overview : option PriceInfo
}.

(** [data[app_id]]. *)
Record AppEntry : Type := {
  success : option bool;
  data : option AppData
}.

(** The four locals that the price branch of [check_steam_prices] sets. *)
Record Observation : Type := {
  current_price : Z;
  price_formatted : string;
  discount_percent : Z;
  original_price_formatted : string
}.

(** One value of [precios_vistos.json], a JSON object.  The keys are those
    that either script reads or writes; a key may be missing. *)
Record HistoryRecord : Type := {
  last_price : option Z;
  last_discount : option Z;
  last_notification : option string;
  name : option string;
  last_checked : option string;
  last_update : option string
}.

(** One value of [all_apps_data]. *)
Record AppSummary : Type := {
  s_name : string;
  s_current_price : Z;
  s_price_formatted : string;
  s_original_price_formatted : string;
  s_discount_percent : Z;
  s_last_checked : string
}.

(** A number or [float('inf')]. *)
Inductive ext : Type :=
  | Fin (z : Z)
  | Inf.

(** [x < y] for an integer [x]. *)
Definition lt_ext (x : Z) (y : ext) : bool :=
  match y with
  | Fin z => x <? z
  | Inf => true
  end.

(** [d.get(key, default)]. *)
Definition get {A} (field : option A) (default : A) : A :=
  match field with
  | Some v => v
  | None => default
  end.

(** [history[app_id].get("last_price", float('inf'))]. *)
Definition get_last_price (r : HistoryRecord) : ext :=
  match last_price r with
  | Some z => Fin z
  | None => Inf
  end.

(** ** The outside world *)

(** [requests.get(...)], [raise_for_status()] and [response.json()]. *)
Inductive GetResult : Type :=
  | GetRaises (e : exn)
  | GetJson (body : gmap string AppEntry).

(** [requests.post(...)]: a response with its status code, or an exception:
    one of [requests], or one that [requests] lets through, such as the
    [LocationParseError] of urllib3 for a host with an over-long label. *)
Inductive PostResult : Type :=
  | PostStatus (status_code : Z)
  | PostRaises (e : exn).

(** What one iteration of the loop over the products meets: the two HTTP
    exchanges and the readings of [datetime.now().isoformat()], in the order
    of the source. *)
Record ProductEnv : Type := {
  get_result : GetResult;
  post_result : PostResult;
  now_checked : string;
  now_notified : string;
  now_updated : string
}.

(** The history file: missing, or there with what [open] and [json.load]
    make of it. *)
Inductive FileState : Type :=
  | Absent
  | Present (read : result (gmap string HistoryRecord)).

(** The arguments of one call of [send_discord_notification]. *)
Record NotifyCall : Type := {
  n_message : string;
  n_app_name : string;
  n_current_price : string;
  n_discount_percent : Z;
  n_original_price : string;
  n_app_id : option string
}.

(** [if x:] for a string that may be [None]. *)
Definition truthy (x : option string) : bool :=
  match x with
  | Some s => negb (String.eqb s "")
  | None => false
  end.

(** ** steam_checker.py *)

Module SteamChecker.

Record Config : Type := {
  apps : list (string * string);
  region : string;
  language : string;
  min_discount_percent : Z
}.

(** The JSON document that one call of [send_discord_notification] posts. *)
Record Payload : Type := {
  p_description : string;
  p_color : Z;
  p_url : string;
  p_app_name : string;
  p_discount_percent : Z;
  p_current_price : string;
  p_original_price : option string
}.

(** The locals of [check_steam_prices] that the loop mutates, and what the
    run has done to the outside world so far. *)
Record State : Type := {
  history : gmap string HistoryRecord;
  all_apps_data : gmap string AppSummary;
  apps_checked : nat;
  notifications_sent : nat;
  notifier_calls : list NotifyCall;
  posts : list Payload;
  save_calls : list (gmap string HistoryRecord)
}.

Definition initial : State :=
  {| history := ∅; all_apps_data := ∅; apps_checked := 0;
     notifications_sent := 0; notifier_calls := []; posts := [];
     save_calls := [] |}.

Definition set_history (h : gmap string HistoryRecord) (s : State) : State :=
  {| history := h; all_apps_data := all_apps_data s;
     apps_checked := apps_checked s;
     notifications_sent := notifications_sent s;
     notifier_calls := notifier_calls s; posts := posts s;
     save_calls := save_calls s |}.

Definition set_all_apps_data (a : gmap string AppSummary) (s : State) : State :=
  {| history := history s; all_apps_data := a;
     apps_checked := apps_checked s;
     notifications_sent := notifications_sent s;
     notifier_calls := notifier_calls s; posts := posts s;
     save_calls := save_calls s |}.

Definition incr_apps_checked (s : State) : State :=
  {| history := history s; all_apps_data := all_apps_data s;
     apps_checked := S (apps_checked s);
     notifications_sent := notifications_sent s;
     notifier_calls := notifier_calls s; posts := posts s;
     save_calls := save_calls s |}.

Definition incr_notifications_sent (s : State) : State :=
  {| history := history s; all_apps_data := all_apps_data s;
     apps_checked := apps_checked s;
     notifications_sent := S (notifications_sent s);
     notifier_calls := notifier_calls s; posts := posts s;
     save_calls := save_calls s |}.

Definition record_call (c : NotifyCall) (s : State) : State :=
  {| history := history s; all_apps_data := all_apps_data s;
     apps_checked := apps_checked s;
     notifications_sent := notifications_sent s;
     notifier_calls := notifier_calls s ++ [c]; posts := posts s;
     save_calls := save_calls s |}.

Definition record_post (p : Payload) (s : State) : State :=
  {| history := history s; all_apps_data := all_apps_data s;
     apps_checked := apps_checked s;
     notifications_sent := notifications_sent s;
     notifier_calls := notifier_calls s; posts := posts s ++ [p];
     save_calls := save_calls s |}.

Definition record_save (h : gmap string HistoryRecord) (s : State) : State :=
  {| history := history s; all_apps_data := all_apps_data s;
     apps_checked := apps_checked s;
     notifications_sent := notifications_sent s;
     notifier_calls := notifier_calls s; posts := posts s;
     save_calls := save_calls s ++ [h] |}.

(** What a run of the script meets. *)
Record World : Type := {
  webhook_url : option string;       (* os.environ.get("DISCORD_WEBHOOK_URL") *)
  db_file : FileState;               (* precios_vistos.json when the run starts *)
  save_result : option exn;          (* what writing the file raises, if anything *)
  oracle : string -> ProductEnv      (* per product id *)
}.

(** [load_history()]. *)
Definition load_history (f : FileState) : result (gmap string HistoryRecord) :=
  match f with
  | Absent => Ok ∅
  | Present (Ok h) => Ok h
  | Present (Raise e) =>
      if caught_by [JSONDecodeErrorClass; IOError] e then Ok ∅ else Raise e
  end.

(** [save_history(history)]. *)
Definition save_history (w : World) (h : gmap string HistoryRecord) : M State unit :=
  try_except
    (modify (record_save h) ;;;
     match save_result w with
     | Some e => raise e
     | None => ret tt
     end)%py
    [([IOError], ret tt)].

(** The colour of the embed, by discount. *)
Definition color (discount_percent : Z) : Z :=
  if 75 <=? discount_percent then 0x00ff00
  else if 50 <=? discount_percent then 0xffa500
  else if 25 <=? discount_percent then 0xffff00
  else 0xff0000.

Definition steam_url (app_id : option string) : string :=
  match app_id with
  | Some i => if truthy app_id then "https://store.steampowered.com/app/" +:+ i
              else "https://store.steampowered.com"
  | None => "https://store.steampowered.com"
  end.

Definition build_payload (c : NotifyCall) : Payload :=
  {| p_description := n_message c;
     p_color := color (n_discount_percent c);
     p_url := steam_url (n_app_id c);
     p_app_name := n_app_name c;
     p_discount_percent := n_discount_percent c;
     p_current_price := n_current_price c;
     p_original_price :=
       if truthy (Some (n_original_price c))
          && negb (String.eqb (n_original_price c) (n_current_price c))
       then Some (n_original_price c) else None |}.

(** [send_discord_notification(...)]. *)
Definition send_discord_notification (w : World) (post : PostResult)
    (c : NotifyCall) : M State bool :=
  let payload := build_payload c in
  try_except
    (if negb (truthy (webhook_url w)) then ret false
     else
       modify (record_post payload) ;;;
       match post with
       | PostRaises e => raise e
       | PostStatus status_code =>
           if (status_code =? 200) || (status_code =? 204)
           then ret true else ret false
       end)%py
    [([RequestException], ret false)].

(** Lines 191-192 and 267-268 of [check_steam_prices]: the entry of the
    product in the response.  [None] is the [else] branch, which logs. *)
Definition app_data_of (body : gmap string AppEntry) (app_id : string)
    : result (option AppData) :=
  match body !! app_id with
  | None => Ok None
  | Some entry =>
      match success entry with
      | None => Raise (KeyError "success")
      | Some false => Ok None
      | Some true =>
          match data entry with
          | None => Raise (KeyError "data")
          | Some d => Ok (Some d)
          end
      end
  end.

(** Lines 196-209: the observation.  [None] is the [continue]. *)
Definition observe (app_data : AppData) : result (option Observation) :=
  if get (is_free app_data) false then
    Ok (Some {| current_price := 0; price_formatted := "Gratis";
                discount_percent := 100;
                original_price_formatted := "Gratis" |})
  else
    match price_overview app_data with
    | Some price_info =>
        match final price_info with
        | None => Raise (KeyError "final")
        | Some p =>
            match final_formatted price_info with
            | None => Raise (KeyError "final_formatted")
            | Some pf =>
                Ok (Some {| current_price := p; price_formatted := pf;
                            discount_percent :=
                              get (pi_discount_percent price_info) 0;
                            original_price_formatted :=
                              get (initial_formatted price_info) pf |})
            end
        end
    | None => Ok None
    end.

(** Lines 224-243: [should_notify] and [notification_reason]. *)
Definition decide (MIN_DISCOUNT : Z) (prior : option HistoryRecord)
    (current_price discount_percent : Z) : bool * string :=
  match prior with
  | None =>
      if MIN_DISCOUNT <=? discount_percent
      then (true, "Nueva verificación con descuento")
      else (false, "")
  | Some r =>
      if lt_ext current_price (get_last_price r)
      then (true, "Precio reducido")
      else if get (last_discount r) 0 <? discount_percent
      then (true, "Descuento aumentado")
      else if (MIN_DISCOUNT <=? discount_percent)
              && (get (last_discount r) 0 =? 0)
      then (true, "Nuevo descuento")
      else (false, "")
  end.

(** Line 246: the condition under which the notifier is called. *)
Definition gate (MIN_DISCOUNT : Z) (should_notify : bool)
    (discount_percent : Z) : bool :=
  should_notify && (MIN_DISCOUNT <=? discount_percent).

(** Lines 259-265: the record written to [history[app_id]]. *)
Definition updated_record (env : ProductEnv) (app_name : string)
    (prior : option HistoryRecord) (should_notify : bool)
    (o : Observation) : HistoryRecord :=
  {| last_price := Some (current_price o);
     last_discount := Some (discount_percent o);
     last_notification :=
       Some (if should_notify then now_notified env
             else get (r ← prior; last_notification r) "");
     name := Some app_name;
     last_checked := Some (now_updated env);
     last_update := None |}.

(** Lines 247-255: the arguments of the call of the notifier. *)
Definition notification (app_id app_name notification_reason : string)
    (o : Observation) : NotifyCall :=
  {| n_message := "🔥 **" +:+ notification_reason +:+ "**";
     n_app_name := app_name;
     n_current_price := price_formatted o;
     n_discount_percent := discount_percent o;
     n_original_price := original_price_formatted o;
     n_app_id := Some app_id |}.

(** Lines 212-265: what the loop does with an observation. *)
Definition handle (cfg : Config) (w : World) (env : ProductEnv)
    (app_id app_name : string) (o : Observation) : M State unit :=
  (modify (fun s => set_all_apps_data
     (<[app_id := {| s_name := app_name;
                     s_current_price := current_price o;
                     s_price_formatted := price_formatted o;
                     s_original_price_formatted := original_price_formatted o;
                     s_discount_percent := discount_percent o;
                     s_last_checked := now_checked env |}]> (all_apps_data s)) s) ;;;
   h <- gets history ;;
   let '(should_notify, notification_reason) :=
     decide (min_discount_percent cfg) (h !! app_id)
            (current_price o) (discount_percent o) in
   (if gate (min_discount_percent cfg) should_notify (discount_percent o) then
      let c := notification app_id app_name notification_reason o in
      modify (record_call c) ;;;
      delivered <- send_discord_notification w (post_result env) c ;;
      if delivered then modify incr_notifications_sent else ret tt
    else ret tt) ;;;
   modify (fun s => set_history
     (<[app_id := updated_record env app_name (history s !! app_id)
                    should_notify o]> (history s)) s))%py.

(** Lines 175-278: the body of the loop for one product, with its
    [try ... except]. *)
Definition process_app (cfg : Config) (w : World)
    (app : string * string) : M State unit :=
  let '(app_id, app_name) := app in
  let env := oracle w app_id in
  try_except
    (body <- lift (match get_result env with
                   | GetRaises e => Raise e
                   | GetJson body => Ok body
                   end) ;;
     found <- lift (app_data_of body app_id) ;;
     match found with
     | None => ret tt
     | Some app_data =>
         modify incr_apps_checked ;;;
         observed <- lift (observe app_data) ;;
         match observed with
         | None => ret tt
         | Some o => handle cfg w env app_id app_name o
         end
     end)%py
    [([RequestException], ret tt);
     ([KeyErrorClass], ret tt);
     ([ExceptionClass], ret tt)].

(** [for x in xs: body]. *)
Fixpoint for_each {A} (xs : list A) (body : A -> M State unit) : M State unit :=
  match xs with
  | [] => ret tt
  | x :: rest => (body x ;;; for_each rest body)%py
  end.

(** [check_steam_prices(config)]. *)
Definition check_steam_prices (cfg : Config) (w : World)
    : M State (gmap string AppSummary * nat * nat) :=
  (h <- lift (load_history (db_file w)) ;;
   modify (set_history h) ;;;
   for_each (apps cfg) (process_app cfg w) ;;;
   h' <- gets history ;;
   save_history w h' ;;;
   s <- gets (fun s => s) ;;
   ret (all_apps_data s, apps_checked s, notifications_sent s))%py.

End SteamChecker.

(** ** api-steam.py *)

Module ApiSteam.

(** The module-level constant [APPS]. *)
Definition APPS : list (string * string) :=
  [("1085660", "Destiny 2 (Base)"); ("1090150", "Destiny 2: Forsaken Pack")].

Record Payload : Type := {
  p_description : string;
  p_color : Z;
  p_app_name : string;
  p_discount_percent : Z;
  p_current_price : string;
  p_original_price : option string
}.

(** This variant keeps no counters. *)
Record State : Type := {
  history : gmap string HistoryRecord;
  all_apps_data : gmap string AppSummary;
  notifier_calls : list NotifyCall;
  posts : list Payload;
  save_calls : list (gmap string HistoryRecord)
}.

Definition initial : State :=
  {| history := ∅; all_apps_data := ∅; notifier_calls := []; posts := [];
     save_calls := [] |}.

Definition set_history (h : gmap string HistoryRecord) (s : State) : State :=
  {| history := h; all_apps_data := all_apps_data s;
     notifier_calls := notifier_calls s; posts := posts s;
     save_calls := save_calls s |}.

Definition set_all_apps_data (a : gmap string AppSummary) (s : State) : State :=
  {| history := history s; all_apps_data := a;
     notifier_calls := notifier_calls s; posts := posts s;
     save_calls := save_calls s |}.

Definition record_call (c : NotifyCall) (s : State) : State :=
  {| history := history s; all_apps_data := all_apps_data s;
     notifier_calls := notifier_calls s ++ [c]; posts := posts s;
     save_calls := save_calls s |}.

Definition record_post (p : Payload) (s : State) : State :=
  {| history := history s; all_apps_data := all_apps_data s;
     notifier_calls := notifier_calls s; posts := posts s ++ [p];
     save_calls := save_calls s |}.

Definition record_save (h : gmap string HistoryRecord) (s : State) : State :=
  {| history := history s; all_apps_data := all_apps_data s;
     notifier_calls := notifier_calls s; posts := posts s;
     save_calls := save_calls s ++ [h] |}.

Record World : Type := {
  db_file : FileState;
  save_result : option exn;
  oracle : string -> ProductEnv
}.

(** [load_history()]. *)
Definition load_history (f : FileState) : result (gmap string HistoryRecord) :=
  match f with
  | Absent => Ok ∅
  | Present (Ok h) => Ok h
  | Present (Raise e) =>
      if caught_by [JSONDecodeErrorClass; IOError] e then Ok ∅ else Raise e
  end.

(** [save_history(history)]. *)
Definition save_history (w : World) (h : gmap string HistoryRecord) : M State unit :=
  try_except
    (modify (record_save h) ;;;
     match save_result w with
     | Some e => raise e
     | None => ret tt
     end)%py
    [([IOError], ret tt)].

Definition color (discount_percent : Z) : Z :=
  if 75 <=? discount_percent then 0x00ff00
  else if 50 <=? discount_percent then 0xffa500
  else 0xff0000.

Definition build_payload (c : NotifyCall) : Payload :=
  {| p_description := n_message c;
     p_color := color (n_discount_percent c);
     p_app_name := n_app_name c;
     p_discount_percent := n_discount_percent c;
     p_current_price := n_current_price c;
     p_original_price :=
       if truthy (Some (n_original_price c))
       then Some (n_original_price c) else None |}.

(** [send_discord_notification(...)]: no [return] statement, so the call
    yields [None]; the status code only chooses the log line. *)
Definition send_discord_notification (post : PostResult)
    (c : NotifyCall) : M State unit :=
  let payload := build_payload c in
  try_except
    (modify (record_post payload) ;;;
     match post with
     | PostRaises e => raise e
     | PostStatus status_code =>
         if status_code =? 204 then ret tt else ret tt
     end)%py
    [([RequestException], ret tt)].

(** Lines 128-129 and 194-195. *)
Definition app_data_of (body : gmap string AppEntry) (app_id : string)
    : result (option AppData) :=
  match body !! app_id with
  | None => Ok None
  | Some entry =>
      match success entry with
      | None => Raise (KeyError "success")
      | Some false => Ok None
      | Some true =>
          match data entry with
          | None => Raise (KeyError "data")
          | Some d => Ok (Some d)
          end
      end
  end.

(** Lines 132-145. *)
Definition observe (app_data : AppData) : result (option Observation) :=
  if get (is_free app_data) false then
    Ok (Some {| current_price := 0; price_formatted := "Gratis";
                discount_percent := 100;
                original_price_formatted := "Gratis" |})
  else
    match price_overview app_data with
    | Some price_info =>
        match final price_info with
        | None => Raise (KeyError "final")
        | Some p =>
            match final_formatted price_info with
            | None => Raise (KeyError "final_formatted")
            | Some pf =>
                Ok (Some {| current_price := p; price_formatted := pf;
                            discount_percent :=
                              get (pi_discount_percent price_info) 0;
                            original_price_formatted :=
                              get (initial_formatted price_info) pf |})
            end
        end
    | None => Ok None
    end.

(** Lines 160-173: [should_notify]. *)
Definition decide (prior : option HistoryRecord)
    (current_price discount_percent : Z) : bool :=
  match prior with
  | None => 0 <? discount_percent
  | Some r =>
      if lt_ext current_price (get_last_price r) then true
      else if (0 <? discount_percent) && (get (last_discount r) 0 =? 0)
      then true
      else if get (last_discount r) 0 <? discount_percent then true
      else false
  end.

(** Line 176. *)
Definition gate (should_notify : bool) (discount_percent : Z) : bool :=
  should_notify && (0 <? discount_percent).

(** Lines 187-192. *)
Definition updated_record (env : ProductEnv) (app_name : string)
    (o : Observation) : HistoryRecord :=
  {| last_price := Some (current_price o);
     last_discount := Some (discount_percent o);
     last_notification := None;
     name := Some app_name;
     last_checked := None;
     last_update := Some (now_updated env) |}.

(** Lines 148-192. *)
Definition handle (env : ProductEnv) (app_id app_name : string)
    (o : Observation) : M State unit :=
  (modify (fun s => set_all_apps_data
     (<[app_id := {| s_name := app_name;
                     s_current_price := current_price o;
                     s_price_formatted := price_formatted o;
                     s_original_price_formatted := original_price_formatted o;
                     s_discount_percent := discount_percent o;
                     s_last_checked := now_checked env |}]> (all_apps_data s)) s) ;;;
   h <- gets history ;;
   let should_notify :=
     decide (h !! app_id) (current_price o) (discount_percent o) in
   (if gate should_notify (discount_percent o) then
      let c := {| n_message := "🔥 **¡Oferta disponible!**";
                  n_app_name := app_name;
                  n_current_price := price_formatted o;
                  n_discount_percent := discount_percent o;
                  n_original_price := original_price_formatted o;
                  n_app_id := None |} in
      modify (record_call c) ;;;
      send_discord_notification (post_result env) c
    else ret tt) ;;;
   modify (fun s => set_history
     (<[app_id := updated_record env app_name o]> (history s)) s))%py.

(** Lines 113-205. *)
Definition process_app (w : World) (app : string * string) : M State unit :=
  let '(app_id, app_name) := app in
  let env := oracle w app_id in
  try_except
    (body <- lift (match get_result env with
                   | GetRaises e => Raise e
                   | GetJson body => Ok body
                   end) ;;
     found <- lift (app_data_of body app_id) ;;
     match found with
     | None => ret tt
     | Some app_data =>
         observed <- lift (observe app_data) ;;
         match observed with
         | None => ret tt
         | Some o => handle env app_id app_name o
         end
     end)%py
    [([RequestException], ret tt);
     ([KeyErrorClass], ret tt);
     ([ExceptionClass], ret tt)].

Fixpoint for_each {A} (xs : list A) (body : A -> M State unit) : M State unit :=
  match xs with
  | [] => ret tt
  | x :: rest => (body x ;;; for_each rest body)%py
  end.

(** [check_steam_prices()]. *)
Definition check_steam_prices (w : World) : M State (gmap string AppSummary) :=
  (h <- lift (load_history (db_file w)) ;;
   modify (set_history h) ;;;
   for_each APPS (process_app w) ;;;
   h' <- gets history ;;
   save_history w h' ;;;
   gets all_apps_data)%py.

End ApiSteam.

(** ** The decision rules as the specification words them *)

Inductive reason : Type :=
  | FirstTime
  | PriceDrop
  | DiscountIncrease
  | NewDiscount.

(** The prior record of the specification: both numbers are there. *)
Record Prior : Type := {
  prior_last_price : Z;
  prior_last_discount : Z
}.

(** Rules 1 to 5, in order, the first that matches decides. *)
Definition spec_decision (threshold : Z) (prior : option Prior)
    (current_price discount_percent : Z) : bool * option reason :=
  match prior with
  | None =>
      if threshold <=? discount_percent then (true, Some FirstTime)
      else (false, None)
  | Some p =>
      if current_price <? prior_last_price p then (true, Some PriceDrop)
      else if prior_last_discount p <? discount_percent
      then (true, Some DiscountIncrease)
      else if (threshold <=? discount_percent) && (prior_last_discount p =? 0)
      then (true, Some NewDiscount)
      else (false, None)
  end.

(** The text that [steam_checker.py] has for each reason. *)
Definition reason_text (r : option reason) : string :=
  match r with
  | Some FirstTime => "Nueva verificación con descuento"
  | Some PriceDrop => "Precio reducido"
  | Some DiscountIncrease => "Descuento aumentado"
  | Some NewDiscount => "Nuevo descuento"
  | None => ""
  end.

(** A stored record that holds the two numbers of [p]; the other keys are
    those of [rest]. *)
Definition stored (p : Prior) (rest : HistoryRecord) : HistoryRecord :=
  {| last_price := Some (prior_last_price p);
     last_discount := Some (prior_last_discount p);
     last_notification := last_notification rest;
     name := name rest;
     last_checked := last_checked rest;
     last_update := last_update rest |}.

(** A record with no key at all. *)
Definition empty_record : HistoryRecord :=
  {| last_price := None; last_discount := None; last_notification := None;
     name := None; last_checked := None; last_update := None |}.

(** The observation that the loop of [steam_checker.py] reaches for a
    product, if it reaches one: the request succeeds, the response has the
    product with a true [success], and [observe] finds a price. *)
Definition fetched (env : ProductEnv) (app_id : string) : option Observation :=
  match get_result env with
  | GetRaises _ => None
  | GetJson body =>
      match SteamChecker.app_data_of body app_id with
      | Ok (Some app_data) =>
          match SteamChecker.observe app_data with
          | Ok (Some o) => Some o
          | _ => None
          end
      | _ => None
      end
  end.

(** What [send_discord_notification] of [steam_checker.py] returns: true when
    the URL is set and the POST is answered with 200 or 204. *)
Definition delivered (w : SteamChecker.World) (post : PostResult) : bool :=
  truthy (SteamChecker.webhook_url w)
  && match post with
     | PostStatus status_code => (status_code =? 200) || (status_code =? 204)
     | PostRaises _ => false
     end.

(** What a call of [send_discord_notification] of [steam_checker.py] ends
    with. *)
Definition notifier_result (w : SteamChecker.World) (post : PostResult)
    : result bool :=
  if truthy (SteamChecker.webhook_url w) then
    match post with
    | PostStatus status_code =>
        Ok ((status_code =? 200) || (status_code =? 204))
    | PostRaises e => if isinstance e RequestException then Ok false else Raise e
    end
  else Ok false.

(** Whether a call of [send_discord_notification] of [steam_checker.py]
    raises: the URL is set and the POST raises what is no
    [RequestException]. *)
Definition escaping (w : SteamChecker.World) (post : PostResult) : bool :=
  truthy (SteamChecker.webhook_url w)
  && match post with
     | PostStatus _ => false
     | PostRaises e => negb (isinstance e RequestException)
     end.

(** Whether a call of [send_discord_notification] of [api-steam.py]
    raises: the POST, which this script always makes, raises what is no
    [RequestException]. *)
Definition api_escaping (post : PostResult) : bool :=
  match post with
  | PostStatus _ => false
  | PostRaises e => negb (isinstance e RequestException)
  end.


(** Whether the pass of [steam_checker.py] over a product with the
    observation [o] ends in the notifier, before line 259: the gate lets the
    call through and the call raises. *)
Definition aborted (cfg : SteamChecker.Config) (w : SteamChecker.World)
    (prior : option HistoryRecord) (env : ProductEnv) (o : Observation) : bool :=
  SteamChecker.gate (SteamChecker.min_discount_percent cfg)
    (fst (SteamChecker.decide (SteamChecker.min_discount_percent cfg) prior
            (current_price o) (discount_percent o)))
    (discount_percent o)
  && escaping w (post_result env).

(** The observation of a product that the loop of [steam_checker.py]
    processes to the end, against the stored records [h]: there is an
    observation and the notifier, if it is called, returns. *)
Definition completed (cfg : SteamChecker.Config) (w : SteamChecker.World)
    (h : gmap string HistoryRecord) (app_id : string) : option Observation :=
  match fetched (SteamChecker.oracle w app_id) app_id with
  | Some o =>
      if aborted cfg w (h !! app_id) (SteamChecker.oracle w app_id) o
      then None else Some o
  | None => None
  end.

(** What one pass of the loop of [steam_checker.py] does to the history:
    the record of the product is replaced when there is an observation and
    the pass reaches line 259, and nothing changes otherwise. *)
Definition history_step (cfg : SteamChecker.Config) (w : SteamChecker.World)
    (h : gmap string HistoryRecord) (app : string * string)
    : gmap string HistoryRecord :=
  let env := SteamChecker.oracle w app.1 in
  match fetched env app.1 with
  | Some o =>
      if aborted cfg w (h !! app.1) env o then h
      else
        <[app.1 :=
            SteamChecker.updated_record env app.2 (h !! app.1)
              (fst (SteamChecker.decide (SteamChecker.min_discount_percent cfg)
                      (h !! app.1) (current_price o) (discount_percent o)))
              o]> h
  | None => h
  end.

(** Whether the loop of [steam_checker.py] reaches line 193 for a product:
    the request succeeds and the response has the product with a true
    [success] and a [data]. *)
Definition checked (env : ProductEnv) (app_id : string) : bool :=
  match get_result env with
  | GetRaises _ => false
  | GetJson body =>
      match SteamChecker.app_data_of body app_id with
      | Ok (Some _) => true
      | _ => false
      end
  end.

(** Lines 212-219: the value that [all_apps_data] gets for a product. *)
Definition summary_of (env : ProductEnv) (app_name : string)
    (o : Observation) : AppSummary :=
  {| s_name := app_name;
     s_current_price := current_price o;
     s_price_formatted := price_formatted o;
     s_original_price_formatted := original_price_formatted o;
     s_discount_percent := discount_percent o;
     s_last_checked := now_checked env |}.

(** The state after one pass of the loop body of [steam_checker.py]. *)
Definition after_app (cfg : SteamChecker.Config) (w : SteamChecker.World)
    (s : SteamChecker.State) (app : string * string) : SteamChecker.State :=
  fst (SteamChecker.process_app cfg w app s).

(** The order between the counters and the lists of the state of
    [steam_checker.py]. *)
Definition counted (s : SteamChecker.State) : Prop :=
  (SteamChecker.notifications_sent s <= length (SteamChecker.posts s))%nat
  /\ (length (SteamChecker.posts s)
      <= length (SteamChecker.notifier_calls s))%nat
  /\ (length (SteamChecker.notifier_calls s) <= SteamChecker.apps_checked s)%nat
  /\ (size (SteamChecker.all_apps_data s) <= SteamChecker.apps_checked s)%nat.

(** The call of the notifier that the loop of [steam_checker.py] makes for
    a product whose stored record is that of [h], if it makes one. *)
Definition call_for (cfg : SteamChecker.Config) (w : SteamChecker.World)
    (h : gmap string HistoryRecord) (app : string * string)
    : option NotifyCall :=
  match fetched (SteamChecker.oracle w app.1) app.1 with
  | Some o =>
      let T := SteamChecker.min_discount_percent cfg in
      let d := SteamChecker.decide T (h !! app.1)
                 (current_price o) (discount_percent o) in
      if SteamChecker.gate T (fst d) (discount_percent o)
      then Some (SteamChecker.notification app.1 app.2 (snd d) o)
      else None
  | None => None
  end.

(** In [steam_checker.py]: one POST per call of the notifier when the URL
    is set, none when it is not, and then nothing counted as sent. *)
Definition posts_follow_calls (w : SteamChecker.World)
    (s : SteamChecker.State) : Prop :=
  SteamChecker.posts s
  = (if truthy (SteamChecker.webhook_url w)
     then SteamChecker.build_payload <$> SteamChecker.notifier_calls s else [])
  /\ (truthy (SteamChecker.webhook_url w) = false ->
      SteamChecker.notifications_sent s = 0%nat).

(** A world of [steam_checker.py] in which no call of the notifier can
    raise: for every product the URL is not set, or the POST is answered, or
    it raises a [RequestException]. *)
Definition contained (w : SteamChecker.World) : Prop :=
  forall app_id,
    escaping w (post_result (SteamChecker.oracle w app_id)) = false.

(** Two worlds of [steam_checker.py] that differ at most in the webhook
    URL, in what becomes of the POSTs and in what writing the history
    raises. *)
Definition same_store (w w' : SteamChecker.World) : Prop :=
  SteamChecker.db_file w = SteamChecker.db_file w'
  /\ forall app_id,
       get_result (SteamChecker.oracle w app_id)
       = get_result (SteamChecker.oracle w' app_id)
       /\ now_checked (SteamChecker.oracle w app_id)
          = now_checked (SteamChecker.oracle w' app_id)
       /\ now_notified (SteamChecker.oracle w app_id)
          = now_notified (SteamChecker.oracle w' app_id)
       /\ now_updated (SteamChecker.oracle w app_id)
          = now_updated (SteamChecker.oracle w' app_id).

(** The part of the state of [steam_checker.py] that the sink has no say
    in. *)
Definition same_but_sink (s s' : SteamChecker.State) : Prop :=
  SteamChecker.history s = SteamChecker.history s'
  /\ SteamChecker.all_apps_data s = SteamChecker.all_apps_data s'
  /\ SteamChecker.apps_checked s = SteamChecker.apps_checked s'
  /\ SteamChecker.notifier_calls s = SteamChecker.notifier_calls s'
  /\ SteamChecker.save_calls s = SteamChecker.save_calls s'.

(** ** steam_checker.py: configuration, report and entry point *)

(** A Python dict with string keys, as the list of its items in insertion
    order. *)
Fixpoint dict_get {V} (k : string) (d : list (string * V)) : option V :=
  match d with
  | [] => None
  | (k', v) :: rest => if String.eqb k' k then Some v else dict_get k rest
  end.

(** [d[k] = v]: in place when the key is there, at the end when it is not. *)
Fixpoint dict_set {V} (k : string) (v : V) (d : list (string * V))
    : list (string * V) :=
  match d with
  | [] => [(k, v)]
  | (k', v') :: rest =>
      if String.eqb k' k then (k', v) :: rest else (k', v') :: dict_set k v rest
  end.

(** [{**a, **b}]. *)
Definition dict_merge {V} (a b : list (string * V)) : list (string * V) :=
  fold_left (fun acc kv => dict_set kv.1 kv.2 acc) b a.

(** [config["notifications"]], a JSON object. *)
Record Notifications : Type := {
  nt_min_discount_percent : option Z;
  nt_only_notify_on_discount : option bool
}.

(** [config.json] once parsed, and the dict that [load_config] returns: the
    keys that the script knows, each of which may be missing. *)
Record ConfigJson : Type := {
  c_apps : option (list (string * string));
  c_region : option string;
  c_language : option string;
  c_check_interval_hours : option Z;
  c_notifications : option Notifications
}.

Definition default_config : ConfigJson :=
  {| c_apps := Some [("1085660", "Destiny 2 (Base)");
                     ("1090150", "Destiny 2: Forsaken Pack")];
     c_region := Some "co";
     c_language := Some "spanish";
     c_check_interval_hours := Some 6;
     c_notifications :=
       Some {| nt_min_discount_percent := Some 10;
               nt_only_notify_on_discount := Some true |} |}.

(** One key of [{**default_config, **user_config}]. *)
Definition overridden {A} (user default : option A) : option A :=
  match user with
  | Some v => Some v
  | None => default
  end.

(** Lines 45-49: the two merges. *)
Definition merged (user_config : ConfigJson) : ConfigJson :=
  {| c_apps :=
       match c_apps user_config with
       | Some user_apps =>
           Some (dict_merge (get (c_apps default_config) []) user_apps)
       | None => c_apps default_config
       end;
     c_region := overridden (c_region user_config) (c_region default_config);
     c_language :=
       overridden (c_language user_config) (c_language default_config);
     c_check_interval_hours :=
       overridden (c_check_interval_hours user_config)
                  (c_check_interval_hours default_config);
     c_notifications :=
       overridden (c_notifications user_config)
                  (c_notifications default_config) |}.

(** [config.json]: missing, or there with what [open] and [json.load] make
    of it. *)
Inductive ConfigFile : Type :=
  | NoConfig
  | ConfigRead (read : result ConfigJson).

(** [load_config()]. *)
Definition load_config {St} (f : ConfigFile) : M St ConfigJson :=
  try_except
    (match f with
     | ConfigRead read =>
         user_config <- lift read ;;
         ret (merged user_config)
     | NoConfig => ret default_config
     end)%py
    [([JSONDecodeErrorClass], ret default_config);
     ([ExceptionClass], ret default_config)].

(** [d[key]] for a key that may be missing. *)
Definition item {A} (key : string) (field : option A) : result A :=
  match field with
  | Some v => Ok v
  | None => Raise (KeyError key)
  end.

(** Lines 166-169 of [check_steam_prices]: what it reads from [config]. *)
Definition settings (config : ConfigJson) : result SteamChecker.Config :=
  match item "apps" (c_apps config) with
  | Raise e => Raise e
  | Ok APPS =>
  match item "region" (c_region config) with
  | Raise e => Raise e
  | Ok REGION =>
  match item "language" (c_language config) with
  | Raise e => Raise e
  | Ok LANGUAGE =>
  match item "notifications" (c_notifications config) with
  | Raise e => Raise e
  | Ok notifications =>
  match item "min_discount_percent" (nt_min_discount_percent notifications) with
  | Raise e => Raise e
  | Ok MIN_DISCOUNT =>
      Ok {| SteamChecker.apps := APPS;
            SteamChecker.region := REGION;
            SteamChecker.language := LANGUAGE;
            SteamChecker.min_discount_percent := MIN_DISCOUNT |}
  end end end end end.

(** [check_steam_prices(config)] on the dict that [load_config] returns:
    the history is loaded first, then the settings are read, then the loop
    runs. *)
Definition check_steam_prices_on (config : ConfigJson) (w : SteamChecker.World)
    : M SteamChecker.State (gmap string AppSummary * nat * nat) :=
  (h <- lift (SteamChecker.load_history (SteamChecker.db_file w)) ;;
   modify (SteamChecker.set_history h) ;;;
   cfg <- lift (settings config) ;;
   SteamChecker.for_each (SteamChecker.apps cfg)
     (SteamChecker.process_app cfg w) ;;;
   h' <- gets SteamChecker.history ;;
   SteamChecker.save_history w h' ;;;
   s <- gets (fun s => s) ;;
   ret (SteamChecker.all_apps_data s, SteamChecker.apps_checked s,
        SteamChecker.notifications_sent s))%py.

(** [sorted(xs, key=key, reverse=True)]: the largest key first, and items
    with the same key in the order they had (Python's sort is stable, also
    when reversed).  An item goes in front of the first one whose key is not
    above its own. *)
Fixpoint insert_desc {A} (key : A -> Z) (x : A) (l : list A) : list A :=
  match l with
  | [] => [x]
  | y :: rest =>
      if key x <? key y then y :: insert_desc key x rest else x :: y :: rest
  end.

Definition sorted_desc {A} (key : A -> Z) (l : list A) : list A :=
  fold_right (insert_desc key) [] l.

(** One line of the list of prices: the mark, the name, the price and the
    discount. *)
Record ReportLine : Type := {
  r_mark : string;
  r_name : string;
  r_price : string;
  r_discount : Z
}.

(** What [generate_report] logs. *)
Record Report : Type := {
  r_checked : nat;
  r_total : nat;
  r_with_discount : nat;
  r_free : nat;
  r_sent : nat;
  r_lines : list ReportLine
}.

(** Lines 303-304. *)
Definition report_line (item : string * AppSummary) : ReportLine :=
  {| r_mark := if 0 <? s_discount_percent item.2 then "🔥" else "  ";
     r_name := s_name item.2;
     r_price := s_price_formatted item.2;
     r_discount := s_discount_percent item.2 |}.

(** [generate_report(all_apps_data, apps_checked, notifications_sent)], on
    the items of [all_apps_data] in the order of the dict. *)
Definition generate_report (items : list (string * AppSummary))
    (apps_checked notifications_sent : nat) : Report :=
  {| r_checked := apps_checked;
     r_total := length items;
     r_with_discount :=
       length (List.filter (fun item => 0 <? s_discount_percent item.2) items);
     r_free :=
       length (List.filter
                 (fun item => String.eqb (s_price_formatted item.2) "Gratis")
                 items);
     r_sent := notifications_sent;
     r_lines :=
       report_line
         <$> sorted_desc (fun item => s_discount_percent item.2) items |}.

(** [main()]: the exit code.  The three log lines before the [try] read
    [config]; inside the [try], [generate_report] is called on what
    [check_steam_prices] returns, and what it logs is dropped.  The discounts
    it compares are integers here, as everywhere in this file: a
    [discount_percent] that the store sends as [null] is outside the model
    (on it [generate_report] raises [TypeError] and [main] returns 1). *)
Definition main (f : ConfigFile) (w : SteamChecker.World)
    : M SteamChecker.State Z :=
  (config <- load_config f ;;
   _ <- lift (item "region" (c_region config)) ;;
   _ <- lift (item "language" (c_language config)) ;;
   _ <- lift (item "apps" (c_apps config)) ;;
   try_except
     (out <- check_steam_prices_on config w ;;
      let '(all_apps_data, apps_checked, notifications_sent) := out in
      let report :=
        generate_report (map_to_list all_apps_data) apps_checked
                        notifications_sent in
      ret 0)
     [([ExceptionClass], ret 1)])%py.

(** The dict that [load_config] returns. *)
Definition config_of_file (f : ConfigFile) : ConfigJson :=
  match f with
  | ConfigRead (Ok user_config) => merged user_config
  | _ => default_config
  end.

(** ** Concrete runs *)

(** A response of the store for one product with a price block. *)
Definition priced (app_id : string) (price discount : Z) : GetResult :=
  GetJson {[ app_id :=
    {| success := Some true;
       data := Some {| is_free := Some false;
                       price_overview :=
                         Some {| final := Some price;
                                 final_formatted := Some "COL$ 9.000";
                                 pi_discount_percent := Some discount;
                                 initial_formatted := Some "COL$ 10.000" |} |} |} ]}.

(** One iteration in which the store answers and Discord accepts. *)
Definition answered (app_id : string) (price discount : Z) : ProductEnv :=
  {| get_result := priced app_id price discount;
     post_result := PostStatus 204;
     now_checked := "2024-06-01T12:00:00";
     now_notified := "2024-06-01T12:00:01";
     now_updated := "2024-06-01T12:00:02" |}.

(** One iteration in which the store cannot be reached. *)
Definition unreachable : ProductEnv :=
  {| get_result := GetRaises ConnectionError;
     post_result := PostRaises ConnectionError;
     now_checked := ""; now_notified := ""; now_updated := "" |}.

(** Product 10 is answered with [price] and [discount]; nothing else is. *)
Definition world_of (file : FileState) (price discount : Z) : SteamChecker.World :=
  {| SteamChecker.webhook_url := Some "https://discord.example/api/webhooks/1";
     SteamChecker.db_file := file;
     SteamChecker.save_result := None;
     SteamChecker.oracle := fun app_id =>
       if String.eqb app_id "10" then answered "10" price discount
       else unreachable |}.

Definition config_of (threshold : Z) : SteamChecker.Config :=
  {| SteamChecker.apps := [("20", "Game B"); ("10", "Game A")];
     SteamChecker.region := "co";
     SteamChecker.language := "spanish";
     SteamChecker.min_discount_percent := threshold |}.

(** A history in which product 10 was seen at 1000 with no discount and
    was last notified on the first of January. *)
Definition seen_at_1000 : gmap string HistoryRecord :=
  {[ "10" := {| last_price := Some 1000; last_discount := Some 0;
                last_notification := Some "2024-01-01T00:00:00";
                name := Some "Game A";
                last_checked := Some "2024-05-01T00:00:00";
                last_update := None |} ]}.

(** A webhook URL whose host has a label of 64 characters, one more than a
    host name may have: urllib3 refuses it with [LocationParseError]. *)
Definition long_label_url : string :=
  "https://aaaaaaaaaaaaaaaaaaaaaaaaaaaaaaaaaaaaaaaaaaaaaaaaaaaaaaaaaaaaaaaa.example/api/webhooks/1".

(** The world of [world_of] with that URL: every POST raises
    [LocationParseError]. *)
Definition long_label_world (file : FileState) (price discount : Z)
    : SteamChecker.World :=
  {| SteamChecker.webhook_url := Some long_label_url;
     SteamChecker.db_file := file;
     SteamChecker.save_result := None;
     SteamChecker.oracle := fun app_id =>
       if String.eqb app_id "10" then
         {| get_result := priced "10" price discount;
            post_result := PostRaises LocationParseError;
            now_checked := "2024-06-01T12:00:00";
            now_notified := "2024-06-01T12:00:01";
            now_updated := "2024-06-01T12:00:02" |}
       else unreachable |}.

(** The same world for [api-steam.py]. *)
Definition api_world_of (file : FileState) (price discount : Z) : ApiSteam.World :=
  {| ApiSteam.db_file := file;
     ApiSteam.save_result := None;
     ApiSteam.oracle := fun app_id =>
       if String.eqb app_id "1085660" then answered "1085660" price discount
       else unreachable |}.

(** The world [w] with no webhook URL and every POST failing. *)
Definition silenced (w : SteamChecker.World) : SteamChecker.World :=
  {| SteamChecker.webhook_url := None;
     SteamChecker.db_file := SteamChecker.db_file w;
     SteamChecker.save_result := SteamChecker.save_result w;
     SteamChecker.oracle := fun app_id =>
       let env := SteamChecker.oracle w app_id in
       {| get_result := get_result env;
          post_result := PostRaises ConnectionError;
          now_checked := now_checked env;
          now_notified := now_notified env;
          now_updated := now_updated env |} |}.

(** A response in which the price block of the product has no [final]. *)
Definition no_final (app_id : string) (discount : Z) : GetResult :=
  GetJson {[ app_id :=
    {| success := Some true;
       data := Some {| is_free := None;
                       price_overview :=
                         Some {| final := None;
                                 final_formatted := Some "COL$ 9.000";
                                 pi_discount_percent := Some discount;
                                 initial_formatted := None |} |} |} ]}.







(** * Properties *)

Import SteamChecker.

(** ** The decision rules *)

Example decide_price_drop :
  decide 10 (Some (stored {| prior_last_price := 1000; prior_last_discount := 0 |}
                          empty_record)) 500 50
  = (true, "Precio reducido").
Proof. reflexivity. Qed.

Example decide_unchanged :
  decide 10 (Some (stored {| prior_last_price := 1000; prior_last_discount := 20 |}
                          empty_record)) 1000 20
  = (false, "").
Proof. reflexivity. Qed.

(** C1. For every threshold, observation and prior state (absent, or a
    record that holds last_price and last_discount), [should_notify] and
    [notification_reason] of [steam_checker.py] are what rules 1 to 5 of the
    specification give, taken in order with the first match deciding. *)
Theorem C1_decision_rules (threshold current_price discount_percent : Z)
    (prior : option Prior) (rest : HistoryRecord) :
  decide threshold ((fun p => stored p rest) <$> prior)
         current_price discount_percent
  = (fst (spec_decision threshold prior current_price discount_percent),
     reason_text
       (snd (spec_decision threshold prior current_price discount_percent))).
Proof.
  destruct prior as [[lp ld]|]; cbn [fmap option_fmap option_map].
  - unfold decide, spec_decision, get_last_price, lt_ext, get, stored;
      cbn [last_price last_discount prior_last_price prior_last_discount].
    destruct (current_price <? lp); [reflexivity|].
    destruct (ld <? discount_percent); [reflexivity|].
    destruct ((threshold <=? discount_percent) && (ld =? 0)); reflexivity.
  - unfold decide, spec_decision.
    destruct (threshold <=? discount_percent); reflexivity.
Qed.

(** The variant [api-steam.py] has no threshold and no reason; its
    [should_notify] is that of the rules at threshold 1. *)
Lemma api_steam_decision_rules (current_price discount_percent : Z)
    (prior : option Prior) (rest : HistoryRecord) :
  ApiSteam.decide ((fun p => stored p rest) <$> prior)
                  current_price discount_percent
  = fst (spec_decision 1 prior current_price discount_percent).
Proof.
  destruct prior as [[lp ld]|]; cbn [fmap option_fmap option_map].
  - unfold ApiSteam.decide, spec_decision, get_last_price, lt_ext, get, stored;
      cbn [last_price last_discount prior_last_price prior_last_discount].
    destruct (current_price <? lp); [reflexivity|].
    destruct (Z.ltb_spec ld discount_percent),
             (Z.ltb_spec 0 discount_percent),
             (Z.leb_spec 1 discount_percent),
             (Z.eqb_spec ld 0); cbn; try reflexivity; lia.
  - unfold ApiSteam.decide, spec_decision.
    destruct (Z.ltb_spec 0 discount_percent),
             (Z.leb_spec 1 discount_percent); cbn; try reflexivity; lia.
Qed.

(** ** One product *)

(** The notifier touches nothing but the list of POSTs. *)
Lemma send_run (w : World) (post : PostResult) (c : NotifyCall) (s : State) :
  send_discord_notification w post c s
  = (if truthy (webhook_url w) then record_post (build_payload c) s else s,
     notifier_result w post).
Proof.
  unfold send_discord_notification, notifier_result, try_except.
  destruct (truthy (webhook_url w)); cbn; [|reflexivity].
  destruct post as [code|e]; cbn.
  - destruct ((code =? 200) || (code =? 204)); reflexivity.
  - destruct e; reflexivity.
Qed.

(** The notifier raises exactly when [escaping] says so; when it returns,
    it returns [delivered]. *)
Lemma notifier_result_cases (w : World) (post : PostResult) :
  (escaping w post = false /\ notifier_result w post = Ok (delivered w post))
  \/ (escaping w post = true /\ delivered w post = false
      /\ truthy (webhook_url w) = true
      /\ exists e, notifier_result w post = Raise e).
Proof.
  unfold escaping, notifier_result, delivered.
  destruct (truthy (webhook_url w)); cbn [andb]; [|left; split; reflexivity].
  destruct post as [code|e]; [left; split; reflexivity|].
  destruct (isinstance e RequestException); cbn [negb].
  - left. split; reflexivity.
  - right. repeat split. exists e. reflexivity.
Qed.

(** What [handle] leaves behind, field by field: the history is updated
    unless the notifier is called and raises. *)
Lemma handle_run (cfg : Config) (w : World) (env : ProductEnv)
    (app_id app_name : string) (o : Observation) (s : State) :
  let T := min_discount_percent cfg in
  let d := decide T (history s !! app_id) (current_price o) (discount_percent o) in
  exists s' r,
    handle cfg w env app_id app_name o s = (s', r)
    /\ history s'
       = (if aborted cfg w (history s !! app_id) env o then history s
          else <[app_id := updated_record env app_name (history s !! app_id)
                             (fst d) o]> (history s))
    /\ notifier_calls s'
       = (notifier_calls s
          ++ (if gate T (fst d) (discount_percent o)
              then [notification app_id app_name (snd d) o] else []))%list
    /\ save_calls s' = save_calls s
    /\ apps_checked s' = apps_checked s.
Proof.
  intros T d. subst T d. unfold aborted, handle, bind, modify, gets. cbn.
  destruct (decide _ _ _ _) as [sn rsn]. cbn [fst snd].
  destruct (gate _ sn _).
  - cbn. rewrite send_run.
    destruct (notifier_result_cases w (post_result env))
      as [[-> ->]|(-> & _ & _ & e & ->)].
    + destruct (delivered w (post_result env)), (truthy (webhook_url w));
        cbn; do 2 eexists; (split; [reflexivity|]); cbn; auto.
    + destruct (truthy (webhook_url w));
        cbn; do 2 eexists; (split; [reflexivity|]); cbn; auto.
  - cbn. do 2 eexists; (split; [reflexivity|]); cbn.
    rewrite app_nil_r. auto.
Qed.

(** The three handlers of the loop: whatever is raised, one of them takes
    it, and each only logs. *)
Lemma loop_handlers_catch (e : exn) (s : State) :
  pick_handler e
    [([RequestException], ret tt); ([KeyErrorClass], ret tt);
     ([ExceptionClass], ret tt)] s
  = (s, Ok tt).
Proof.
  cbn [pick_handler].
  destruct (caught_by [RequestException] e); [reflexivity|].
  destruct (caught_by [KeyErrorClass] e); [reflexivity|].
  reflexivity.
Qed.

(** One pass of the loop body returns, leaves [save_calls] alone, and does
    to the history and to the notifier what [handle] does when there is an
    observation, and nothing when there is none; what the notifier raises is
    taken by the handlers of the loop. *)
Lemma process_app_run (cfg : Config) (w : World) (app_id app_name : string)
    (s : State) :
  let T := min_discount_percent cfg in
  let env := oracle w app_id in
  exists s',
    process_app cfg w (app_id, app_name) s = (s', Ok tt)
    /\ save_calls s' = save_calls s
    /\ match fetched env app_id with
       | Some o =>
           let d := decide T (history s !! app_id)
                           (current_price o) (discount_percent o) in
           history s'
           = (if aborted cfg w (history s !! app_id) env o then history s
              else <[app_id := updated_record env app_name
                                 (history s !! app_id) (fst d) o]> (history s))
           /\ notifier_calls s'
              = (notifier_calls s
                 ++ (if gate T (fst d) (discount_percent o)
                     then [notification app_id app_name (snd d) o]
                     else []))%list
       | None =>
           history s' = history s /\ notifier_calls s' = notifier_calls s
       end.
Proof.
  intros T env. subst T env.
  unfold process_app, fetched, try_except, bind, lift, modify.
  destruct (get_result (oracle w app_id)) as [e|body].
  { rewrite loop_handlers_catch. eauto. }
  destruct (app_data_of body app_id) as [[app_data|]|e].
  - destruct (observe app_data) as [[o|]|e].
    + destruct (handle_run cfg w (oracle w app_id) app_id app_name o
                  (incr_apps_checked s)) as (s' & r & Hrun & Hh & Hn & Hs & _).
      rewrite Hrun. exists s'. cbn in Hh, Hn, Hs.
      destruct r as [[]|e]; [|rewrite loop_handlers_catch]; auto.
    + cbn. eauto.
    + rewrite loop_handlers_catch. cbn. eauto.
  - cbn. eauto.
  - rewrite loop_handlers_catch. eauto.
Qed.

(** ** The gate *)

Example fetched_answered :
  fetched (oracle (world_of Absent 900 5) "10") "10"
  = Some {| current_price := 900; price_formatted := "COL$ 9.000";
            discount_percent := 5;
            original_price_formatted := "COL$ 10.000" |}.
Proof. vm_compute. reflexivity. Qed.

(** C2. For a product that the loop has an observation for, the notifier is
    called (once) exactly when a rule matched and the discount is at least
    the threshold; a price drop with a discount under the threshold matches
    a rule and yet calls nothing. *)
Theorem C2_notifier_gate (cfg : Config) (w : World) (app_id app_name : string)
    (s : State) (o : Observation) :
  fetched (oracle w app_id) app_id = Some o ->
  let T := min_discount_percent cfg in
  let s' := fst (process_app cfg w (app_id, app_name) s) in
  let should_notify :=
    fst (decide T (history s !! app_id) (current_price o) (discount_percent o)) in
  ((exists c, notifier_calls s' = (notifier_calls s ++ [c])%list)
   <-> should_notify = true /\ T <= discount_percent o)
  /\ (~ (should_notify = true /\ T <= discount_percent o) ->
      notifier_calls s' = notifier_calls s)
  /\ (forall r, history s !! app_id = Some r ->
        lt_ext (current_price o) (get_last_price r) = true ->
        discount_percent o < T ->
        should_notify = true /\ notifier_calls s' = notifier_calls s).
Proof.
  intros Hf T s' sn.
  destruct (process_app_run cfg w app_id app_name s) as (s1 & Hrun & _ & Hobs).
  rewrite Hf in Hobs. destruct Hobs as [_ Hcalls].
  subst s'. rewrite Hrun. cbn [fst]. fold T in Hcalls. fold sn in Hcalls.
  unfold gate in Hcalls.
  assert (Hgate : sn && (T <=? discount_percent o) = true
                  <-> sn = true /\ T <= discount_percent o).
  { rewrite andb_true_iff, Z.leb_le. reflexivity. }
  destruct (sn && (T <=? discount_percent o)) eqn:Hg.
  - split; [|split].
    + split; [intros _; apply Hgate; reflexivity|]. intros _. eauto.
    + intros Hn. exfalso. apply Hn, Hgate. reflexivity.
    + intros r Hr Hlt Hd. exfalso.
      apply proj1 in Hgate. specialize (Hgate eq_refl). lia.
  - rewrite app_nil_r in Hcalls. split; [|split].
    + split.
      * intros [c Hc]. rewrite Hcalls in Hc.
        apply (f_equal (@length _)) in Hc. rewrite length_app in Hc.
        cbn in Hc. lia.
      * intros Hn. apply Hgate in Hn. discriminate.
    + intros _. exact Hcalls.
    + intros r Hr Hlt Hd. split; [|exact Hcalls].
      subst sn. rewrite Hr. unfold decide. rewrite Hlt. reflexivity.
Qed.

Lemma C2_notifier_gate_witness :
  let cfg := config_of 10 in
  let w := world_of Absent 900 5 in
  let s := set_history seen_at_1000 initial in
  let s' := fst (process_app cfg w ("10", "Game A") s) in
  fst (decide 10 (history s !! "10") 900 5) = true
  /\ notifier_calls s' = notifier_calls s.
Proof.
  intros cfg w s s'.
  refine (proj2 (proj2 (C2_notifier_gate cfg w "10" "Game A" s
            {| current_price := 900; price_formatted := "COL$ 9.000";
               discount_percent := 5;
               original_price_formatted := "COL$ 10.000" |} _)) _ _ _ _).
  - vm_compute. reflexivity.
  - vm_compute. reflexivity.
  - vm_compute. reflexivity.
  - vm_compute. reflexivity.
Defined.

(** A product without an observation causes no call and leaves the
    history as it was. *)
Lemma no_observation_no_call (cfg : Config) (w : World)
    (app_id app_name : string) (s : State) :
  fetched (oracle w app_id) app_id = None ->
  let s' := fst (process_app cfg w (app_id, app_name) s) in
  notifier_calls s' = notifier_calls s /\ history s' = history s.
Proof.
  intros Hf s'. subst s'.
  destruct (process_app_run cfg w app_id app_name s) as (s1 & Hrun & _ & Hobs).
  rewrite Hf in Hobs. rewrite Hrun. cbn [fst]. tauto.
Qed.

(** In [api-steam.py] the gate is a discount above 0: a price drop with no
    discount sets [should_notify] and calls nothing. *)
Example api_steam_gate :
  let h : gmap string HistoryRecord :=
    {[ "1085660" := stored {| prior_last_price := 1000;
                              prior_last_discount := 0 |} empty_record ]} in
  let s' := fst (ApiSteam.check_steam_prices
                   (api_world_of (Present (Ok h)) 900 0) ApiSteam.initial) in
  ApiSteam.decide (h !! "1085660") 900 0 = true
  /\ ApiSteam.notifier_calls s' = []
  /\ ApiSteam.history s' !! "1085660" ≫= last_price = Some 900
  /\ ApiSteam.history s' !! "1090150" = None
  /\ ApiSteam.save_calls s' = [ApiSteam.history s'].
Proof. vm_compute. repeat split; reflexivity. Qed.

(** ** The history after one product *)

(** The record of a product that the loop has an observation for, when the
    pass reaches line 259. *)
Lemma history_after (cfg : Config) (w : World) (app_id app_name : string)
    (s : State) (o : Observation) :
  fetched (oracle w app_id) app_id = Some o ->
  aborted cfg w (history s !! app_id) (oracle w app_id) o = false ->
  history (fst (process_app cfg w (app_id, app_name) s)) !! app_id
  = Some (updated_record (oracle w app_id) app_name (history s !! app_id)
            (fst (decide (min_discount_percent cfg) (history s !! app_id)
                         (current_price o) (discount_percent o))) o).
Proof.
  intros Hf Hab.
  destruct (process_app_run cfg w app_id app_name s) as (s1 & Hrun & _ & Hobs).
  rewrite Hf in Hobs. destruct Hobs as [Hh _]. rewrite Hab in Hh.
  rewrite Hrun. cbn [fst]. rewrite Hh. apply lookup_insert_eq.
Qed.

(** What the source does with [last_notification]: the stamp follows
    [should_notify], not the call of the notifier. *)
Lemma last_notification_after (cfg : Config) (w : World)
    (app_id app_name : string) (s : State) (o : Observation) :
  fetched (oracle w app_id) app_id = Some o ->
  aborted cfg w (history s !! app_id) (oracle w app_id) o = false ->
  let should_notify :=
    fst (decide (min_discount_percent cfg) (history s !! app_id)
                (current_price o) (discount_percent o)) in
  history (fst (process_app cfg w (app_id, app_name) s)) !! app_id
    ≫= last_notification
  = Some (if should_notify then now_notified (oracle w app_id)
          else get (history s !! app_id ≫= last_notification) "").
Proof.
  intros Hf Hab sn. rewrite (history_after _ _ _ _ _ _ Hf Hab). reflexivity.
Qed.

(** C3. A run in which the stamp moves although the notifier is not called.
    The threshold is 10; product 10 was seen at 1000 with no discount and
    last notified on the first of January; it is now at 900 with a discount
    of 5.  The price drop sets [should_notify], the gate of line 246 keeps
    the notifier from being called, nothing is posted, and yet
    [last_notification] of the saved history is the time of this run. *)
Theorem C3_stamp_without_attempt :
  let cfg := config_of 10 in
  let w := world_of (Present (Ok seen_at_1000)) 900 5 in
  let s' := fst (check_steam_prices cfg w initial) in
  notifier_calls s' = []
  /\ posts s' = []
  /\ seen_at_1000 !! "10" ≫= last_notification = Some "2024-01-01T00:00:00"
  /\ history s' !! "10" ≫= last_notification = Some "2024-06-01T12:00:01"
  /\ save_calls s' = [history s'].
Proof. vm_compute. repeat split; reflexivity. Qed.

(** ** A second run on the same observation *)


(** With a positive threshold, a price that has not moved and a discount
    that has not grown match no rule. *)
Lemma unchanged_silent (threshold current_price discount_percent : Z)
    (r : HistoryRecord) (ld : Z) :
  0 < threshold ->
  last_price r = Some current_price ->
  last_discount r = Some ld ->
  discount_percent <= ld ->
  decide threshold (Some r) current_price discount_percent = (false, "").
Proof.
  intros HT Hp Hd Hle. unfold decide, get_last_price, lt_ext, get.
  rewrite Hp, Hd. rewrite Z.ltb_irrefl.
  destruct (Z.ltb_spec ld discount_percent); [lia|].
  destruct (Z.leb_spec threshold discount_percent),
           (Z.eqb_spec ld 0); cbn; try reflexivity; lia.
Qed.

(** C4. Two runs on the same observation that both notify.  The threshold
    is 0 and product 10, never seen before, is at 1000 with no discount.  The
    first pass notifies by rule 1 and stores the record; on the second pass,
    with the same observation against that record, rule 4 matches
    (0 >= 0 and last_discount == 0) and the notifier is called again. *)
Theorem C4_second_run_notifies :
  let cfg := config_of 0 in
  let w := world_of Absent 1000 0 in
  let s1 := fst (process_app cfg w ("10", "Game A") initial) in
  let s2 := fst (process_app cfg w ("10", "Game A") s1) in
  decide 0 (history s1 !! "10") 1000 0 = (true, "Nuevo descuento")
  /\ length (notifier_calls s1) = 1%nat
  /\ length (notifier_calls s2) = 2%nat
  /\ history s2 !! "10" ≫= last_discount = history s1 !! "10" ≫= last_discount
  /\ history s2 !! "10" ≫= last_price = history s1 !! "10" ≫= last_price.
Proof. vm_compute. repeat split; reflexivity. Qed.

(** The same rule in [api-steam.py] asks for a discount above 0: there the
    second run on that observation matches no rule. *)
Lemma api_steam_second_run_silent (env : ProductEnv) (app_name : string)
    (o : Observation) :
  ApiSteam.decide (Some (ApiSteam.updated_record env app_name o))
                  (current_price o) (discount_percent o) = false.
Proof.
  unfold ApiSteam.decide, get_last_price, lt_ext, get, ApiSteam.updated_record.
  cbn [last_price last_discount].
  rewrite !Z.ltb_irrefl.
  destruct (Z.ltb_spec 0 (discount_percent o)),
           (Z.eqb_spec (discount_percent o) 0); cbn; try reflexivity; lia.
Qed.

(** When the pass reaches line 259, that is unless the notifier is called
    and raises, the product gets a record with the observed price and
    discount, whatever the decision; when it had no record and its discount
    is under the threshold, the notifier is not called and the record is
    there. *)
Lemma history_updated_when_completed (cfg : Config) (w : World)
    (app_id app_name : string) (s : State) (o : Observation) :
  fetched (oracle w app_id) app_id = Some o ->
  let s' := fst (process_app cfg w (app_id, app_name) s) in
  (aborted cfg w (history s !! app_id) (oracle w app_id) o = false ->
   exists r, history s' !! app_id = Some r
             /\ last_price r = Some (current_price o)
             /\ last_discount r = Some (discount_percent o))
  /\ (history s !! app_id = None ->
      discount_percent o < min_discount_percent cfg ->
      notifier_calls s' = notifier_calls s
      /\ is_Some (history s' !! app_id)).
Proof.
  intros Hf s'. subst s'. split.
  - intros Hab. eexists.
    split; [apply (history_after _ _ _ _ _ _ Hf Hab)|]. split; reflexivity.
  - intros Hnone Hlt.
    assert (Hg : gate (min_discount_percent cfg)
                   (fst (decide (min_discount_percent cfg) None
                           (current_price o) (discount_percent o)))
                   (discount_percent o) = false).
    { unfold gate, decide.
      destruct (Z.leb_spec (min_discount_percent cfg) (discount_percent o));
        [lia|reflexivity]. }
    split.
    + destruct (process_app_run cfg w app_id app_name s)
        as (s1 & Hrun & _ & Hobs).
      rewrite Hf in Hobs. destruct Hobs as [_ Hcalls].
      rewrite Hrun. cbn [fst]. rewrite Hcalls, Hnone, Hg. apply app_nil_r.
    + rewrite (history_after _ _ _ _ _ _ Hf); [eauto|].
      unfold aborted. rewrite Hnone, Hg. reflexivity.
Qed.

(** C5. A product that is fetched with an observation and whose record is
    not updated.  The webhook URL has a host label of 64 characters; product
    10, stored at 1000 with no discount, is now at 900 with a discount of
    50.  The notifier is called, [requests.post] raises
    [LocationParseError], which is no [RequestException]: the notifier raises
    it, the [except Exception] of the loop takes it, and lines 259-265 are
    skipped.  The run reports the product at 900 in [all_apps_data] and
    saves a history in which it is still at 1000 with no discount. *)
Theorem C5_history_not_updated :
  let cfg := config_of 10 in
  let w := long_label_world (Present (Ok seen_at_1000)) 900 50 in
  let s' := fst (check_steam_prices cfg w initial) in
  fetched (oracle w "10") "10"
  = Some {| current_price := 900; price_formatted := "COL$ 9.000";
            discount_percent := 50;
            original_price_formatted := "COL$ 10.000" |}
  /\ length (notifier_calls s') = 1%nat
  /\ all_apps_data s' !! "10" ≫= (fun a => Some (s_current_price a)) = Some 900
  /\ history s' !! "10" ≫= last_price = Some 1000
  /\ history s' !! "10" ≫= last_discount = Some 0
  /\ save_calls s' = [history s'].
Proof. vm_compute. repeat split; reflexivity. Qed.

(** ** Loading the history *)

(** The three outcomes that the specification names. *)
Lemma load_history_named_cases (h : gmap string HistoryRecord) :
  load_history Absent = Ok ∅
  /\ load_history (Present (Ok h)) = Ok h
  /\ load_history (Present (Raise JSONDecodeError)) = Ok ∅
  /\ load_history (Present (Raise OSError)) = Ok ∅.
Proof. repeat split; reflexivity. Qed.

(** [load_history] raises exactly what its [except] clause does not name. *)
Lemma load_history_raises (f : FileState) (e : exn) :
  load_history f = Raise e
  <-> f = Present (Raise e) /\ caught_by [JSONDecodeErrorClass; IOError] e = false.
Proof.
  split.
  - destruct f as [|[h|e']]; unfold load_history; try discriminate.
    destruct (caught_by [JSONDecodeErrorClass; IOError] e') eqn:Hc;
      [discriminate|].
    intros [= ->]. auto.
  - intros [-> Hc]. unfold load_history. rewrite Hc. reflexivity.
Qed.

(** C6. A history file that is there and whose bytes are not valid text:
    reading it raises [UnicodeDecodeError], a [ValueError] that is neither a
    [JSONDecodeError] nor an [IOError], so that [load_history], in both
    scripts, raises it in turn; [check_steam_prices] then ends with that
    exception before the first product, and saves nothing. *)
Theorem C6_undecodable_file_raises :
  let f := Present (Raise UnicodeDecodeError) in
  load_history f = Raise UnicodeDecodeError
  /\ ApiSteam.load_history f = Raise UnicodeDecodeError
  /\ check_steam_prices (config_of 10) (world_of f 900 50) initial
     = (initial, Raise UnicodeDecodeError).
Proof. repeat split; reflexivity. Qed.

(** ** The notifier *)

(** When the POST is answered, or raises a [RequestException], or the URL
    is missing, the notifier of [steam_checker.py] returns a boolean: true
    exactly when the URL is set and the answer is 200 or 204. *)
Lemma notifier_returns_bool (w : World) (post : PostResult)
    (c : NotifyCall) (s : State) :
  escaping w post = false ->
  exists (s' : State) (b : bool),
    send_discord_notification w post c s = (s', Ok b)
    /\ (b = true <->
        truthy (webhook_url w) = true
        /\ (post = PostStatus 200 \/ post = PostStatus 204))
    /\ (truthy (webhook_url w) = false -> b = false)
    /\ (forall e, post = PostRaises e -> b = false)
    /\ (forall code, post = PostStatus code ->
          code <> 200 -> code <> 204 -> b = false).
Proof.
  intros Hesc. rewrite send_run.
  destruct (notifier_result_cases w post) as [[_ ->]|[Hesc' _]];
    [|congruence].
  do 2 eexists. split; [reflexivity|].
  unfold delivered. destruct (truthy (webhook_url w)); cbn.
  - destruct post as [code|e].
    + destruct (Z.eqb_spec code 200) as [->|H200];
        [|destruct (Z.eqb_spec code 204) as [->|H204]]; cbn.
      * repeat split; auto; try discriminate.
        intros code [= <-] H. congruence.
      * repeat split; auto; try discriminate.
        intros code [= <-] _ H. congruence.
      * repeat split; auto; try discriminate.
        intros [_ [[= ?]|[= ?]]]; congruence.
    + repeat split; auto; try discriminate.
      intros [_ [?|?]]; discriminate.
  - repeat split; auto; try discriminate.
    intros [? _]; discriminate.
Qed.

(** The notifier of [api-steam.py]: the POST is always made, and what it
    raises outside [RequestException] is raised by the notifier. *)
Lemma api_send_run (post : PostResult) (c : NotifyCall) (s : ApiSteam.State) :
  ApiSteam.send_discord_notification post c s
  = (ApiSteam.record_post (ApiSteam.build_payload c) s,
     match post with
     | PostStatus _ => Ok tt
     | PostRaises e => if api_escaping post then Raise e else Ok tt
     end).
Proof.
  unfold ApiSteam.send_discord_notification, try_except, bind, modify.
  destruct post as [code|e]; cbn.
  - destruct (code =? 204); reflexivity.
  - destruct e; reflexivity.
Qed.

(** The notifier of [api-steam.py] has no [return]: when it does not
    raise, it yields [None]. *)
Lemma api_steam_notifier_returns_none (post : PostResult) (c : NotifyCall)
    (s : ApiSteam.State) :
  api_escaping post = false ->
  ApiSteam.send_discord_notification post c s
  = (ApiSteam.record_post (ApiSteam.build_payload c) s, Ok tt).
Proof.
  intros Hesc. rewrite api_send_run.
  destruct post as [code|e]; [reflexivity|]. rewrite Hesc. reflexivity.
Qed.

(** C7. A call of the notifier that raises.  With a webhook URL whose host
    has a label of 64 characters, [requests.post] raises urllib3's
    [LocationParseError]; it is no [RequestException], the [except] clause
    of [send_discord_notification] does not take it, and the notifier of
    [steam_checker.py] raises it instead of returning false; so does the
    notifier of [api-steam.py], which, when the POST is answered with 204,
    returns [None] and no boolean. *)
Theorem C7_notifier_raises :
  let w := long_label_world Absent 900 50 in
  let c := notification "10" "Game A" "Precio reducido"
             {| current_price := 900; price_formatted := "COL$ 9.000";
                discount_percent := 50;
                original_price_formatted := "COL$ 10.000" |} in
  send_discord_notification w (post_result (oracle w "10")) c initial
  = (record_post (build_payload c) initial, Raise LocationParseError)
  /\ ApiSteam.send_discord_notification (PostRaises LocationParseError) c
       ApiSteam.initial
     = (ApiSteam.record_post (ApiSteam.build_payload c) ApiSteam.initial,
        Raise LocationParseError)
  /\ ApiSteam.send_discord_notification (PostStatus 204) c ApiSteam.initial
     = (ApiSteam.record_post (ApiSteam.build_payload c) ApiSteam.initial,
        Ok tt).
Proof. repeat split; reflexivity. Qed.

(** ** Free products *)

(** C9. When the payload of a product carries a true [is_free], the
    observation is price 0, discount 100 and the text [Gratis] for both
    prices, whatever the price block holds or lacks; so in both scripts. *)
Theorem C9_free_product (po : option PriceInfo) :
  let free :=
    Some {| current_price := 0; price_formatted := "Gratis";
            discount_percent := 100; original_price_formatted := "Gratis" |} in
  observe {| is_free := Some true; price_overview := po |} = Ok free
  /\ ApiSteam.observe {| is_free := Some true; price_overview := po |} = Ok free.
Proof. split; reflexivity. Qed.

(** ** Records with missing keys *)

(** C10. A stored record without [last_price] makes rule 2 match for every
    observed price; a stored record without [last_discount] is read as one
    whose [last_discount] is 0. *)
Theorem C10_missing_keys (threshold current_price discount_percent : Z)
    (r : HistoryRecord) :
  (last_price r = None ->
   decide threshold (Some r) current_price discount_percent
   = (true, "Precio reducido"))
  /\ (last_discount r = None ->
      decide threshold (Some r) current_price discount_percent
      = decide threshold
          (Some {| last_price := last_price r; last_discount := Some 0;
                   last_notification := last_notification r;
                   name := name r; last_checked := last_checked r;
                   last_update := last_update r |})
          current_price discount_percent).
Proof.
  split.
  - intros H. unfold decide, get_last_price. rewrite H. reflexivity.
  - intros H. unfold decide, get_last_price, get. cbn [last_price last_discount].
    rewrite H. reflexivity.
Qed.

(** The same holds in [api-steam.py]. *)
Lemma api_steam_missing_keys (current_price discount_percent : Z)
    (r : HistoryRecord) :
  (last_price r = None ->
   ApiSteam.decide (Some r) current_price discount_percent = true)
  /\ (last_discount r = None ->
      ApiSteam.decide (Some r) current_price discount_percent
      = ApiSteam.decide
          (Some {| last_price := last_price r; last_discount := Some 0;
                   last_notification := last_notification r;
                   name := name r; last_checked := last_checked r;
                   last_update := last_update r |})
          current_price discount_percent).
Proof.
  split.
  - intros H. unfold ApiSteam.decide, get_last_price. rewrite H. reflexivity.
  - intros H. unfold ApiSteam.decide, get_last_price, get.
    cbn [last_price last_discount]. rewrite H. reflexivity.
Qed.

Lemma C10_missing_keys_witness :
  decide 10 (Some empty_record) 5000 0 = (true, "Precio reducido").
Proof.
  refine (proj1 (C10_missing_keys 10 5000 0 empty_record) _).
  reflexivity.
Defined.

(** ** The whole pass *)

Section Loop.

Variable cfg : Config.
Variable w : World.

Lemma history_step_ne (h : gmap string HistoryRecord) (app : string * string) (i : string) :
  app.1 <> i -> history_step cfg w h app !! i = h !! i.
Proof.
  intros Hne. unfold history_step.
  destruct (fetched _ _); [|reflexivity].
  destruct (aborted _ _ _ _ _); [reflexivity|]. by rewrite lookup_insert_ne.
Qed.

(** At the product itself the step only looks at the record of that
    product. *)
Lemma history_step_eq (h h' : gmap string HistoryRecord) (app : string * string) :
  h !! app.1 = h' !! app.1 ->
  history_step cfg w h app !! app.1 = history_step cfg w h' app !! app.1.
Proof.
  intros Heq. unfold history_step.
  destruct (fetched _ _); [|exact Heq]. rewrite Heq.
  destruct (aborted _ _ _ _ _); [exact Heq|].
  rewrite !lookup_insert_eq. reflexivity.
Qed.

Lemma fold_history_step_other (l : list (string * string)) (h : gmap string HistoryRecord) (i : string) :
  i ∉ l.*1 -> fold_left (history_step cfg w) l h !! i = h !! i.
Proof.
  revert h. induction l as [|a l IH]; intros h Hi; [reflexivity|].
  cbn in Hi. apply not_elem_of_cons in Hi as [Hne Hi].
  cbn [fold_left]. rewrite IH by exact Hi.
  apply history_step_ne. congruence.
Qed.

(** With pairwise distinct ids (the keys of a dict), the record of a
    product after the loop is the one that its own pass wrote. *)
Lemma fold_history_step_member (l : list (string * string)) (h : gmap string HistoryRecord)
    (app : string * string) :
  NoDup l.*1 -> app ∈ l ->
  fold_left (history_step cfg w) l h !! app.1
  = history_step cfg w h app !! app.1.
Proof.
  revert h. induction l as [|a l IH]; intros h Hnd Hin.
  { by apply elem_of_nil in Hin. }
  cbn in Hnd. apply NoDup_cons in Hnd as [Hfresh Hnd].
  cbn [fold_left]. apply elem_of_cons in Hin as [->|Hin].
  - apply fold_history_step_other. exact Hfresh.
  - rewrite IH by assumption.
    apply history_step_eq, history_step_ne.
    intros Heq. apply Hfresh. rewrite Heq.
    apply list_elem_of_fmap. eauto.
Qed.

(** The loop returns whatever happens to each product; it saves nothing,
    and the history it leaves is the fold of [history_step]. *)
Lemma for_each_run (l : list (string * string)) (s : State) :
  exists s',
    for_each l (process_app cfg w) s = (s', Ok tt)
    /\ save_calls s' = save_calls s
    /\ history s' = fold_left (history_step cfg w) l (history s).
Proof.
  revert s. induction l as [|[app_id app_name] l IH]; intros s.
  { exists s. auto. }
  destruct (process_app_run cfg w app_id app_name s) as (s1 & Hrun & Hs1 & Hobs).
  destruct (IH s1) as (s2 & Hrest & Hs2 & Hh2).
  exists s2. cbn [for_each]. unfold bind. rewrite Hrun.
  split; [exact Hrest|]. split; [congruence|].
  rewrite Hh2. cbn [fold_left]. f_equal.
  unfold history_step. cbn [fst snd].
  cbv zeta in Hobs.
  destruct (fetched (oracle w app_id) app_id); apply Hobs.
Qed.

End Loop.

(** C8. Whatever each product meets (a request that raises, a response
    without the expected keys, an unsuccessful or missing entry, no price, a
    notifier that raises), the failure is taken at the boundary of the loop
    and [check_steam_prices] reaches the end of the loop: every product of
    the configuration that is processed to the end ends with its observed
    price and discount in the history, every other one keeps the record it
    had, and [save_history] is called once, after the loop, with that
    history. *)
Theorem C8_failures_stay_local (cfg : Config) (w : World)
    (h0 : gmap string HistoryRecord) :
  load_history (db_file w) = Ok h0 ->
  NoDup (apps cfg).*1 ->
  exists s' r,
    check_steam_prices cfg w initial = (s', r)
    /\ save_calls s' = [history s']
    /\ (forall app_id app_name, (app_id, app_name) ∈ apps cfg ->
          match completed cfg w h0 app_id with
          | Some o =>
              exists rec, history s' !! app_id = Some rec
                          /\ last_price rec = Some (current_price o)
                          /\ last_discount rec = Some (discount_percent o)
                          /\ name rec = Some app_name
          | None => history s' !! app_id = h0 !! app_id
          end)
    /\ (forall app_id, app_id ∉ (apps cfg).*1 ->
          history s' !! app_id = h0 !! app_id)
    /\ ((forall e, save_result w = Some e -> isinstance e IOError = true) ->
        exists out, r = Ok out).
Proof.
  intros Hload Hnd.
  destruct (for_each_run cfg w (apps cfg) (set_history h0 initial))
    as (s1 & Hloop & Hs1 & Hh1).
  cbn [set_history save_calls history initial] in Hs1, Hh1.
  assert (Hpost :
    (forall app_id app_name, (app_id, app_name) ∈ apps cfg ->
       match completed cfg w h0 app_id with
       | Some o =>
           exists rec, history s1 !! app_id = Some rec
                       /\ last_price rec = Some (current_price o)
                       /\ last_discount rec = Some (discount_percent o)
                       /\ name rec = Some app_name
       | None => history s1 !! app_id = h0 !! app_id
       end)
    /\ (forall app_id, app_id ∉ (apps cfg).*1 ->
          history s1 !! app_id = h0 !! app_id)).
  { split.
    - intros app_id app_name Hin. rewrite Hh1.
      pose proof (fold_history_step_member cfg w _ h0 (app_id, app_name)
                    Hnd Hin) as Hm.
      cbn [fst] in Hm. rewrite Hm.
      unfold history_step, completed. cbn [fst snd].
      destruct (fetched (oracle w app_id) app_id) as [o|]; [|reflexivity].
      destruct (aborted cfg w (h0 !! app_id) (oracle w app_id) o);
        [reflexivity|].
      rewrite lookup_insert_eq. eexists. split; [reflexivity|].
      repeat split.
    - intros app_id Hout. rewrite Hh1.
      apply fold_history_step_other. exact Hout. }
  unfold check_steam_prices, bind, lift, modify, gets.
  rewrite Hload, Hloop. unfold save_history, try_except, bind, modify.
  destruct (save_result w) as [e|] eqn:Hsave.
  - cbn [raise pick_handler]. unfold caught_by. cbn [existsb].
    rewrite orb_false_r.
    destruct (isinstance e IOError) eqn:Hio.
    + cbn. do 2 eexists. split; [reflexivity|]. cbn.
      rewrite Hs1. repeat split; try apply Hpost. eauto.
    + cbn. do 2 eexists. split; [reflexivity|]. cbn.
      rewrite Hs1. repeat split; try apply Hpost.
      intros Hio'. specialize (Hio' e eq_refl).
      change (isinstance e IOError = false) in Hio.
      change (isinstance e IOError = true) in Hio'. congruence.
  - cbn. do 2 eexists. split; [reflexivity|]. cbn.
    rewrite Hs1. repeat split; try apply Hpost. eauto.
Qed.

Lemma C8_failures_stay_local_witness :
  let cfg := config_of 10 in
  let w := world_of (Present (Ok seen_at_1000)) 900 50 in
  exists s' r,
    check_steam_prices cfg w initial = (s', r)
    /\ save_calls s' = [history s']
    /\ (forall app_id app_name, (app_id, app_name) ∈ apps cfg ->
          match completed cfg w seen_at_1000 app_id with
          | Some o =>
              exists rec, history s' !! app_id = Some rec
                          /\ last_price rec = Some (current_price o)
                          /\ last_discount rec = Some (discount_percent o)
                          /\ name rec = Some app_name
          | None => history s' !! app_id = seen_at_1000 !! app_id
          end)
    /\ (forall app_id, app_id ∉ (apps cfg).*1 ->
          history s' !! app_id = seen_at_1000 !! app_id)
    /\ ((forall e, save_result w = Some e -> isinstance e IOError = true) ->
        exists out, r = Ok out).
Proof.
  intros cfg w.
  refine (C8_failures_stay_local cfg w seen_at_1000 _ _).
  - reflexivity.
  - apply (bool_decide_unpack _). vm_compute. reflexivity.
Defined.

(** The run of that witness: product 20 cannot be reached, product 10 is
    processed after it, notified, and the history is saved once. *)
Example run_with_one_failure :
  let s' := fst (check_steam_prices (config_of 10)
                   (world_of (Present (Ok seen_at_1000)) 900 50) initial) in
  length (notifier_calls s') = 1%nat
  /\ apps_checked s' = 1%nat
  /\ notifications_sent s' = 1%nat
  /\ history s' !! "20" = None
  /\ history s' !! "10" ≫= last_price = Some 900
  /\ save_calls s' = [history s'].
Proof. vm_compute. repeat split; reflexivity. Qed.

(** * Further properties of the two scripts *)

(** ** The decision and the gate together *)

(** X1. Lowering [min_discount_percent] never loses a notification: an
    observation for which the notifier is called at one threshold has it
    called at every lower one, against the same record. *)
Theorem attempt_monotone_in_threshold (T T' current_price discount_percent : Z)
    (prior : option HistoryRecord) :
  T' <= T ->
  gate T (fst (decide T prior current_price discount_percent))
       discount_percent = true ->
  gate T' (fst (decide T' prior current_price discount_percent))
       discount_percent = true.
Proof.
  intros Hle. unfold gate, decide.
  destruct prior as [r|].
  - destruct (lt_ext current_price (get_last_price r)); cbn [fst].
    { rewrite !andb_true_l, !Z.leb_le. lia. }
    destruct (get (last_discount r) 0 <? discount_percent); cbn [fst].
    { rewrite !andb_true_l, !Z.leb_le. lia. }
    destruct (Z.leb_spec T discount_percent),
             (Z.leb_spec T' discount_percent),
             (get (last_discount r) 0 =? 0); cbn; try reflexivity;
      try discriminate; lia.
  - destruct (Z.leb_spec T discount_percent),
             (Z.leb_spec T' discount_percent); cbn; try reflexivity;
      try discriminate; lia.
Qed.

Lemma attempt_monotone_in_threshold_witness :
  gate 10 (fst (decide 10 (seen_at_1000 !! "10") 900 25)) 25 = true.
Proof.
  refine (attempt_monotone_in_threshold 20 10 900 25 _ _ _).
  - lia.
  - vm_compute. reflexivity.
Defined.

(** X2. With a positive threshold the fourth rule of [steam_checker.py]
    never decides: whenever its condition holds the discount is above a
    [last_discount] of 0, so that the third rule has matched before it, and
    no notification carries the reason [Nuevo descuento]. *)
Theorem new_discount_rule_never_decides (T current_price discount_percent : Z)
    (prior : option HistoryRecord) :
  0 < T ->
  snd (decide T prior current_price discount_percent) <> "Nuevo descuento".
Proof.
  intros HT. unfold decide.
  destruct prior as [r|].
  - destruct (lt_ext current_price (get_last_price r)); [discriminate|].
    destruct (Z.ltb_spec (get (last_discount r) 0) discount_percent);
      [discriminate|].
    destruct (Z.leb_spec T discount_percent),
             (Z.eqb_spec (get (last_discount r) 0) 0); cbn;
      try discriminate; lia.
  - destruct (T <=? discount_percent); discriminate.
Qed.

Lemma new_discount_rule_never_decides_witness :
  snd (decide 10 (seen_at_1000 !! "10") 1000 30) <> "Nuevo descuento".
Proof.
  refine (new_discount_rule_never_decides 10 1000 30 _ _). lia.
Defined.

(** X3. The two scripts call the notifier on the same observations when
    [min_discount_percent] is 1: for every stored record, with or without
    its keys, the gate of [api-steam.py] (a discount above 0) and the gate of
    [steam_checker.py] at threshold 1 agree, and so do the two values of
    [should_notify]. *)
Theorem scripts_agree_at_threshold_one (current_price discount_percent : Z)
    (prior : option HistoryRecord) :
  ApiSteam.decide prior current_price discount_percent
  = fst (decide 1 prior current_price discount_percent)
  /\ ApiSteam.gate (ApiSteam.decide prior current_price discount_percent)
                  discount_percent
     = gate 1 (fst (decide 1 prior current_price discount_percent))
            discount_percent.
Proof.
  assert (Hd : ApiSteam.decide prior current_price discount_percent
               = fst (decide 1 prior current_price discount_percent)).
  { unfold ApiSteam.decide, decide. destruct prior as [r|].
    - destruct (lt_ext current_price (get_last_price r)); [reflexivity|].
      destruct (Z.ltb_spec (get (last_discount r) 0) discount_percent),
               (Z.ltb_spec 0 discount_percent),
               (Z.leb_spec 1 discount_percent),
               (Z.eqb_spec (get (last_discount r) 0) 0); cbn;
        try reflexivity; lia.
    - destruct (Z.ltb_spec 0 discount_percent),
               (Z.leb_spec 1 discount_percent); cbn; try reflexivity; lia. }
  split; [exact Hd|].
  unfold ApiSteam.gate, gate. rewrite Hd. f_equal.
  destruct (Z.ltb_spec 0 discount_percent),
           (Z.leb_spec 1 discount_percent); try reflexivity; lia.
Qed.

(** ** Every field of the state after one product *)

(** [handle], field by field. *)
Lemma handle_full (cfg : Config) (w : World) (env : ProductEnv)
    (app_id app_name : string) (o : Observation) (s : State) :
  let T := min_discount_percent cfg in
  let d := decide T (history s !! app_id) (current_price o) (discount_percent o) in
  let g := gate T (fst d) (discount_percent o) in
  let c := notification app_id app_name (snd d) o in
  exists s' r,
    handle cfg w env app_id app_name o s = (s', r)
    /\ history s'
       = (if aborted cfg w (history s !! app_id) env o then history s
          else <[app_id := updated_record env app_name (history s !! app_id)
                             (fst d) o]> (history s))
    /\ all_apps_data s'
       = <[app_id := summary_of env app_name o]> (all_apps_data s)
    /\ apps_checked s' = apps_checked s
    /\ notifier_calls s' = (notifier_calls s ++ (if g then [c] else []))%list
    /\ posts s'
       = (posts s ++ (if g && truthy (webhook_url w)
                      then [build_payload c] else []))%list
    /\ notifications_sent s'
       = (notifications_sent s
          + (if g && delivered w (post_result env) then 1 else 0))%nat
    /\ save_calls s' = save_calls s.
Proof.
  intros T d g c. subst T d g c.
  unfold aborted, handle, bind, modify, gets. cbn.
  destruct (decide _ _ _ _) as [sn rsn]. cbn [fst snd].
  destruct (gate _ sn _).
  - cbn. rewrite send_run.
    destruct (notifier_result_cases w (post_result env))
      as [[-> ->]|(-> & -> & -> & e & ->)].
    + destruct (delivered w (post_result env)), (truthy (webhook_url w));
        cbn; do 2 eexists; (split; [reflexivity|]); cbn;
        rewrite ?Nat.add_0_r, ?Nat.add_1_r, ?app_nil_r; auto 10.
    + cbn. do 2 eexists; (split; [reflexivity|]); cbn.
      rewrite ?Nat.add_0_r. auto 10.
  - cbn. do 2 eexists; (split; [reflexivity|]); cbn.
    rewrite ?Nat.add_0_r, ?app_nil_r. auto 10.
Qed.

(** The loop body, field by field: a product that is not reached leaves the
    state as it is; one that is reached counts as checked; one with an
    observation is handled. *)
Lemma process_app_full (cfg : Config) (w : World) (app_id app_name : string)
    (s : State) :
  let env := oracle w app_id in
  exists s',
    process_app cfg w (app_id, app_name) s = (s', Ok tt)
    /\ match fetched env app_id with
       | Some o =>
           s' = fst (handle cfg w env app_id app_name o (incr_apps_checked s))
       | None =>
           s' = if checked env app_id then incr_apps_checked s else s
       end.
Proof.
  intros env. subst env.
  unfold process_app, fetched, checked, try_except, bind, lift, modify.
  destruct (get_result (oracle w app_id)) as [e|body].
  { rewrite loop_handlers_catch. eauto. }
  destruct (app_data_of body app_id) as [[app_data|]|e].
  - destruct (observe app_data) as [[o|]|e].
    + destruct (handle_full cfg w (oracle w app_id) app_id app_name o
                  (incr_apps_checked s)) as (s' & r & Hrun & _).
      rewrite Hrun. cbn [fst].
      destruct r as [[]|e]; [|rewrite loop_handlers_catch]; eauto.
    + cbn. eauto.
    + rewrite loop_handlers_catch. cbn. eauto.
  - cbn. eauto.
  - rewrite loop_handlers_catch. eauto.
Qed.

(** A product with an observation has been reached. *)
Lemma fetched_checked (env : ProductEnv) (app_id : string) (o : Observation) :
  fetched env app_id = Some o -> checked env app_id = true.
Proof.
  unfold fetched, checked.
  destruct (get_result env) as [e|body]; [discriminate|].
  destruct (app_data_of body app_id) as [[app_data|]|e];
    [reflexivity|discriminate..].
Qed.

Section WholeRun.

Variable cfg : Config.
Variable w : World.

Lemma process_app_returns (app : string * string) (s : State) :
  process_app cfg w app s = (after_app cfg w s app, Ok tt).
Proof.
  destruct app as [app_id app_name]. unfold after_app.
  destruct (process_app_full cfg w app_id app_name s) as (s' & Hrun & _).
  rewrite Hrun. reflexivity.
Qed.

(** The loop is the left fold of its body. *)
Lemma for_each_fold (l : list (string * string)) (s : State) :
  for_each l (process_app cfg w) s = (fold_left (after_app cfg w) l s, Ok tt).
Proof.
  revert s. induction l as [|a l IH]; intros s; [reflexivity|].
  cbn [for_each fold_left]. unfold bind.
  rewrite process_app_returns. apply IH.
Qed.

(** What holds before the loop and is kept by the body holds after it. *)
Lemma loop_invariant (I : State -> Prop) :
  (forall app s, I s -> I (after_app cfg w s app)) ->
  forall l s, I s -> I (fold_left (after_app cfg w) l s).
Proof.
  intros Hstep l. induction l as [|a l IH]; intros s Hs; [exact Hs|].
  cbn [fold_left]. apply IH, Hstep, Hs.
Qed.

(** The fields after one pass of the body. *)
Lemma after_app_fields (app_id app_name : string) (s : State) :
  let env := oracle w app_id in
  let s' := after_app cfg w s (app_id, app_name) in
  save_calls s' = save_calls s
  /\ match fetched env app_id with
     | Some o =>
         let T := min_discount_percent cfg in
         let d := decide T (history s !! app_id)
                         (current_price o) (discount_percent o) in
         let g := gate T (fst d) (discount_percent o) in
         let c := notification app_id app_name (snd d) o in
         history s'
         = (if aborted cfg w (history s !! app_id) env o then history s
            else <[app_id := updated_record env app_name (history s !! app_id)
                               (fst d) o]> (history s))
         /\ all_apps_data s'
            = <[app_id := summary_of env app_name o]> (all_apps_data s)
         /\ apps_checked s' = S (apps_checked s)
         /\ notifier_calls s'
            = (notifier_calls s ++ (if g then [c] else []))%list
         /\ posts s'
            = (posts s ++ (if g && truthy (webhook_url w)
                           then [build_payload c] else []))%list
         /\ notifications_sent s'
            = (notifications_sent s
               + (if g && delivered w (post_result env) then 1 else 0))%nat
     | None =>
         history s' = history s
         /\ all_apps_data s' = all_apps_data s
         /\ apps_checked s'
            = (apps_checked s + (if checked env app_id then 1 else 0))%nat
         /\ notifier_calls s' = notifier_calls s
         /\ posts s' = posts s
         /\ notifications_sent s' = notifications_sent s
     end.
Proof.
  intros env s'. subst env s'. unfold after_app.
  destruct (process_app_full cfg w app_id app_name s) as (s' & Hrun & Hs').
  rewrite Hrun. cbn [fst]. cbv zeta in Hs'.
  destruct (fetched (oracle w app_id) app_id) as [o|].
  - destruct (handle_full cfg w (oracle w app_id) app_id app_name o
                (incr_apps_checked s))
      as (s2 & r & Hh & H1 & H2 & H3 & H4 & H5 & H6 & H7).
    rewrite Hh in Hs'. cbn [fst] in Hs'. subst s2.
    cbn in H1, H2, H3, H4, H5, H6, H7. auto 10.
  - subst s'. destruct (checked (oracle w app_id) app_id); cbn;
      rewrite ?Nat.add_0_r, ?Nat.add_1_r; auto 10.
Qed.

(** [check_steam_prices] in terms of the loop: when the history loads, the
    final state is that of the loop with one call of [save_history] added,
    and the call raises only what writing the file raises outside
    [IOError]. *)
Lemma check_steam_prices_run (h0 : gmap string HistoryRecord) :
  load_history (db_file w) = Ok h0 ->
  let sl := fold_left (after_app cfg w) (apps cfg) (set_history h0 initial) in
  check_steam_prices cfg w initial
  = (record_save (history sl) sl,
     match save_result w with
     | Some e =>
         if isinstance e IOError
         then Ok (all_apps_data sl, apps_checked sl, notifications_sent sl)
         else Raise e
     | None => Ok (all_apps_data sl, apps_checked sl, notifications_sent sl)
     end).
Proof.
  intros Hload sl. subst sl.
  unfold check_steam_prices, bind, lift, modify, gets.
  rewrite Hload, for_each_fold.
  unfold save_history, try_except, bind, modify.
  destruct (save_result w) as [e|]; [|reflexivity].
  cbn [raise pick_handler]. unfold caught_by. cbn [existsb].
  rewrite orb_false_r.
  destruct (isinstance e IOError); reflexivity.
Qed.

(** When the history does not load, nothing else happens. *)
Lemma check_steam_prices_no_load (e : exn) :
  load_history (db_file w) = Raise e ->
  check_steam_prices cfg w initial = (initial, Raise e).
Proof.
  intros Hload. unfold check_steam_prices, bind, lift. rewrite Hload.
  reflexivity.
Qed.

End WholeRun.

(** ** What a whole run returns *)

Section Counters.

Variable cfg : Config.
Variable w : World.

Lemma counted_step (app : string * string) (s : State) :
  counted s -> counted (after_app cfg w s app).
Proof.
  destruct app as [app_id app_name]. intros (H1 & H2 & H3 & H4).
  destruct (after_app_fields cfg w app_id app_name s) as [_ Hf].
  cbv zeta in Hf. unfold counted.
  destruct (fetched (oracle w app_id) app_id) as [o|].
  - destruct Hf as (_ & Ha & Hc & Hn & Hp & Hs).
    rewrite Ha, Hc, Hn, Hp, Hs, !length_app, map_size_insert.
    unfold delivered.
    destruct (gate _ _ _), (truthy (webhook_url w)),
             (all_apps_data s !! app_id); cbn [andb length];
      try destruct (match post_result (oracle w app_id) with
                    | PostStatus _ => _ | PostRaises _ => _ end);
      cbn; lia.
  - destruct Hf as (_ & Ha & Hc & Hn & Hp & Hs).
    rewrite Ha, Hc, Hn, Hp, Hs.
    destruct (checked _ _); lia.
Qed.

Lemma apps_checked_bound (l : list (string * string)) (s : State) :
  (apps_checked (fold_left (after_app cfg w) l s)
   <= apps_checked s + length l)%nat.
Proof.
  revert s. induction l as [|[app_id app_name] l IH]; intros s; cbn; [lia|].
  specialize (IH (after_app cfg w s (app_id, app_name))).
  destruct (after_app_fields cfg w app_id app_name s) as [_ Hf].
  cbv zeta in Hf.
  destruct (fetched (oracle w app_id) app_id) as [o|].
  - destruct Hf as (_ & _ & Hc & _). lia.
  - destruct Hf as (_ & _ & Hc & _). destruct (checked _ _); lia.
Qed.

End Counters.

(** X4. In the state that [check_steam_prices] of [steam_checker.py]
    leaves, and so in the triple it returns, the counters are in order: no
    more notifications counted as sent than POSTs made, no more POSTs than
    calls of the notifier, no more calls than products checked, no more
    products checked than configured; and [all_apps_data] has at most
    [apps_checked] entries. *)
Theorem run_counters_in_order (cfg : Config) (w : World) :
  let s' := fst (check_steam_prices cfg w initial) in
  (notifications_sent s' <= length (posts s'))%nat
  /\ (length (posts s') <= length (notifier_calls s'))%nat
  /\ (length (notifier_calls s') <= apps_checked s')%nat
  /\ (apps_checked s' <= length (apps cfg))%nat
  /\ (size (all_apps_data s') <= apps_checked s')%nat.
Proof.
  intros s'. subst s'.
  destruct (load_history (db_file w)) as [h0|e] eqn:Hload.
  - rewrite (check_steam_prices_run cfg w h0 Hload). cbn [fst].
    set (sl := fold_left (after_app cfg w) (apps cfg) (set_history h0 initial)).
    assert (Hc : counted sl).
    { apply loop_invariant; [apply counted_step|].
      unfold counted. cbn. rewrite map_size_empty. lia. }
    pose proof (apps_checked_bound cfg w (apps cfg) (set_history h0 initial))
      as Hb.
    fold sl in Hb. cbn in Hb.
    destruct Hc as (H1 & H2 & H3 & H4). cbn. lia.
  - rewrite (check_steam_prices_no_load cfg w e Hload). cbn.
    rewrite map_size_empty. lia.
Qed.

Section Returned.

Variable cfg : Config.
Variable w : World.

Lemma all_apps_data_other (l : list (string * string)) (s : State)
    (i : string) :
  i ∉ l.*1 ->
  all_apps_data (fold_left (after_app cfg w) l s) !! i = all_apps_data s !! i.
Proof.
  revert s. induction l as [|[app_id app_name] l IH]; intros s Hi;
    [reflexivity|].
  cbn in Hi. apply not_elem_of_cons in Hi as [Hne Hi].
  cbn [fold_left]. rewrite IH by exact Hi.
  destruct (after_app_fields cfg w app_id app_name s) as [_ Hf].
  cbv zeta in Hf.
  destruct (fetched (oracle w app_id) app_id) as [o|].
  - destruct Hf as (_ & Ha & _). rewrite Ha.
    apply lookup_insert_ne. congruence.
  - destruct Hf as (_ & Ha & _). rewrite Ha. reflexivity.
Qed.

Lemma all_apps_data_member (l : list (string * string)) (s : State)
    (app_id app_name : string) :
  NoDup l.*1 -> (app_id, app_name) ∈ l ->
  all_apps_data (fold_left (after_app cfg w) l s) !! app_id
  = match fetched (oracle w app_id) app_id with
    | Some o => Some (summary_of (oracle w app_id) app_name o)
    | None => all_apps_data s !! app_id
    end.
Proof.
  revert s. induction l as [|[i n] l IH]; intros s Hnd Hin.
  { by apply elem_of_nil in Hin. }
  cbn in Hnd. apply NoDup_cons in Hnd as [Hfresh Hnd].
  cbn [fold_left]. apply elem_of_cons in Hin as [[= <- <-]|Hin].
  - rewrite all_apps_data_other by exact Hfresh.
    destruct (after_app_fields cfg w app_id app_name s) as [_ Hf].
    cbv zeta in Hf.
    destruct (fetched (oracle w app_id) app_id) as [o|].
    + destruct Hf as (_ & Ha & _). rewrite Ha. apply lookup_insert_eq.
    + destruct Hf as (_ & Ha & _). rewrite Ha. reflexivity.
  - rewrite IH by assumption.
    assert (Hne : i <> app_id).
    { intros ->. apply Hfresh. apply list_elem_of_fmap.
      exists (app_id, app_name). auto. }
    destruct (fetched (oracle w app_id) app_id); [reflexivity|].
    destruct (after_app_fields cfg w i n s) as [_ Hf]. cbv zeta in Hf.
    destruct (fetched (oracle w i) i).
    + destruct Hf as (_ & Ha & _). rewrite Ha. by apply lookup_insert_ne.
    + destruct Hf as (_ & Ha & _). rewrite Ha. reflexivity.
Qed.

Lemma apps_checked_exact (l : list (string * string)) (s : State) :
  apps_checked (fold_left (after_app cfg w) l s)
  = (apps_checked s
     + length (List.filter (fun app => checked (oracle w app.1) app.1) l))%nat.
Proof.
  revert s. induction l as [|[app_id app_name] l IH]; intros s; cbn; [lia|].
  rewrite IH.
  destruct (after_app_fields cfg w app_id app_name s) as [_ Hf].
  cbv zeta in Hf.
  destruct (fetched (oracle w app_id) app_id) as [o|] eqn:Hfe.
  - destruct Hf as (_ & _ & Hc & _). rewrite Hc.
    rewrite (fetched_checked _ _ _ Hfe). cbn. lia.
  - destruct Hf as (_ & _ & Hc & _). rewrite Hc.
    destruct (checked _ _); cbn; lia.
Qed.

End Returned.

(** X5. What [check_steam_prices] returns when the history loads, the ids
    are distinct and writing the file raises nothing outside [IOError]: a map
    with exactly the configured products that have an observation, each with
    its name and the observed prices and discount; the number of products
    reached at line 193, with or without a price; and the counter of
    notifications of the final state. *)
Theorem returned_summary (cfg : Config) (w : World)
    (h0 : gmap string HistoryRecord) :
  load_history (db_file w) = Ok h0 ->
  NoDup (apps cfg).*1 ->
  (forall e, save_result w = Some e -> isinstance e IOError = true) ->
  exists s' data n_checked n_sent,
    check_steam_prices cfg w initial = (s', Ok (data, n_checked, n_sent))
    /\ (forall app_id app_name, (app_id, app_name) ∈ apps cfg ->
          data !! app_id
          = summary_of (oracle w app_id) app_name
              <$> fetched (oracle w app_id) app_id)
    /\ (forall app_id, app_id ∉ (apps cfg).*1 -> data !! app_id = None)
    /\ n_checked
       = length (List.filter (fun app => checked (oracle w app.1) app.1)
                             (apps cfg))
    /\ n_sent = notifications_sent s'.
Proof.
  intros Hload Hnd Hsave.
  rewrite (check_steam_prices_run cfg w h0 Hload).
  set (sl := fold_left (after_app cfg w) (apps cfg) (set_history h0 initial)).
  exists (record_save (history sl) sl), (all_apps_data sl), (apps_checked sl),
         (notifications_sent sl).
  split.
  { destruct (save_result w) as [e|]; [|reflexivity].
    rewrite (Hsave e eq_refl). reflexivity. }
  split; [|split; [|split]].
  - intros app_id app_name Hin. subst sl.
    rewrite (all_apps_data_member cfg w _ _ app_id app_name Hnd Hin).
    destruct (fetched (oracle w app_id) app_id); reflexivity.
  - intros app_id Hout. subst sl.
    rewrite (all_apps_data_other cfg w _ _ app_id Hout). reflexivity.
  - subst sl. rewrite apps_checked_exact. reflexivity.
  - reflexivity.
Qed.

Lemma returned_summary_witness :
  let cfg := config_of 10 in
  let w := world_of (Present (Ok seen_at_1000)) 900 50 in
  exists s' data n_checked n_sent,
    check_steam_prices cfg w initial = (s', Ok (data, n_checked, n_sent))
    /\ (forall app_id app_name, (app_id, app_name) ∈ apps cfg ->
          data !! app_id
          = summary_of (oracle w app_id) app_name
              <$> fetched (oracle w app_id) app_id)
    /\ (forall app_id, app_id ∉ (apps cfg).*1 -> data !! app_id = None)
    /\ n_checked
       = length (List.filter (fun app => checked (oracle w app.1) app.1)
                             (apps cfg))
    /\ n_sent = notifications_sent s'.
Proof.
  intros cfg w.
  refine (returned_summary cfg w seen_at_1000 _ _ _).
  - reflexivity.
  - apply (bool_decide_unpack _). vm_compute. reflexivity.
  - intros e He. discriminate He.
Defined.

(** ** The notifications of a whole run *)

Section Calls.

Variable cfg : Config.
Variable w : World.

Lemma call_for_lookup (h h' : gmap string HistoryRecord)
    (app : string * string) :
  h !! app.1 = h' !! app.1 -> call_for cfg w h app = call_for cfg w h' app.
Proof. intros Heq. unfold call_for. rewrite Heq. reflexivity. Qed.

Lemma after_app_calls (app : string * string) (s : State) :
  notifier_calls (after_app cfg w s app)
  = (notifier_calls s ++ option_list (call_for cfg w (history s) app))%list.
Proof.
  destruct app as [app_id app_name].
  destruct (after_app_fields cfg w app_id app_name s) as [_ Hf].
  cbv zeta in Hf. unfold call_for. cbn [fst snd].
  destruct (fetched (oracle w app_id) app_id) as [o|].
  - destruct Hf as (_ & _ & _ & Hn & _). rewrite Hn.
    destruct (gate _ _ _); reflexivity.
  - destruct Hf as (_ & _ & _ & Hn & _). rewrite Hn, app_nil_r. reflexivity.
Qed.

Lemma after_app_history_other (app : string * string) (s : State)
    (i : string) :
  app.1 <> i -> history (after_app cfg w s app) !! i = history s !! i.
Proof.
  destruct app as [app_id app_name]. cbn [fst]. intros Hne.
  destruct (after_app_fields cfg w app_id app_name s) as [_ Hf].
  cbv zeta in Hf.
  destruct (fetched (oracle w app_id) app_id) as [o|].
  - destruct Hf as (Hh & _). rewrite Hh.
    destruct (aborted _ _ _ _ _); [reflexivity|]. by apply lookup_insert_ne.
  - destruct Hf as (Hh & _). rewrite Hh. reflexivity.
Qed.

Lemma omap_call_for_ext (l : list (string * string))
    (h h' : gmap string HistoryRecord) :
  (forall app, app ∈ l -> h !! app.1 = h' !! app.1) ->
  omap (call_for cfg w h) l = omap (call_for cfg w h') l.
Proof.
  induction l as [|a l IH]; intros Hl; [reflexivity|].
  cbn [omap list_omap].
  rewrite (call_for_lookup h h' a) by (apply Hl; left).
  rewrite IH; [reflexivity|]. intros app Hin. apply Hl. by right.
Qed.

Lemma loop_calls (l : list (string * string)) (s : State) :
  NoDup l.*1 ->
  notifier_calls (fold_left (after_app cfg w) l s)
  = (notifier_calls s ++ omap (call_for cfg w (history s)) l)%list.
Proof.
  revert s. induction l as [|a l IH]; intros s Hnd.
  { cbn. by rewrite app_nil_r. }
  cbn in Hnd. apply NoDup_cons in Hnd as [Hfresh Hnd].
  cbn [fold_left]. rewrite IH by exact Hnd.
  rewrite after_app_calls, <- app_assoc. f_equal.
  rewrite (omap_call_for_ext l (history (after_app cfg w s a)) (history s)).
  - cbn [omap list_omap]. destruct (call_for cfg w (history s) a); reflexivity.
  - intros app Hin. apply after_app_history_other.
    intros Heq. apply Hfresh. rewrite Heq.
    apply list_elem_of_fmap. eauto.
Qed.

Lemma posts_follow_calls_step (app : string * string) (s : State) :
  posts_follow_calls w s -> posts_follow_calls w (after_app cfg w s app).
Proof.
  destruct app as [app_id app_name]. intros [Hp Hs].
  destruct (after_app_fields cfg w app_id app_name s) as [_ Hf].
  cbv zeta in Hf. unfold posts_follow_calls.
  destruct (fetched (oracle w app_id) app_id) as [o|].
  - destruct Hf as (_ & _ & _ & Hn & Hp' & Hs').
    rewrite Hn, Hp', Hs', Hp. unfold delivered.
    destruct (truthy (webhook_url w)).
    + rewrite fmap_app, andb_true_r.
      destruct (gate _ _ _); split; try reflexivity; discriminate.
    + rewrite !andb_false_r. cbn. split; [reflexivity|].
      intros _. rewrite Hs; [lia|reflexivity].
  - destruct Hf as (_ & _ & _ & Hn & Hp' & Hs').
    rewrite Hn, Hp', Hs'. auto.
Qed.

End Calls.

(** X6. The calls of the notifier in one run of [steam_checker.py], in
    closed form: when the history loads as [h0] and the ids are distinct,
    the calls are, in the order of the configuration, one for each product
    that has an observation and passes the gate against its record in [h0],
    with its own id, name, reason and observed prices; no record written
    during the run bears on a later product. *)
Theorem run_calls (cfg : Config) (w : World) (h0 : gmap string HistoryRecord) :
  load_history (db_file w) = Ok h0 ->
  NoDup (apps cfg).*1 ->
  notifier_calls (fst (check_steam_prices cfg w initial))
  = omap (call_for cfg w h0) (apps cfg).
Proof.
  intros Hload Hnd.
  rewrite (check_steam_prices_run cfg w h0 Hload). cbn [fst].
  change (notifier_calls (record_save ?h ?s)) with (notifier_calls s).
  rewrite loop_calls by exact Hnd. reflexivity.
Qed.

Lemma run_calls_witness :
  notifier_calls (fst (check_steam_prices (config_of 10)
                         (world_of (Present (Ok seen_at_1000)) 900 50)
                         initial))
  = omap (call_for (config_of 10)
            (world_of (Present (Ok seen_at_1000)) 900 50) seen_at_1000)
         (apps (config_of 10)).
Proof.
  refine (run_calls (config_of 10)
            (world_of (Present (Ok seen_at_1000)) 900 50) seen_at_1000 _ _).
  - reflexivity.
  - apply (bool_decide_unpack _). vm_compute. reflexivity.
Defined.

(** X7. No run of [steam_checker.py] calls the notifier with a discount
    under [min_discount_percent], whatever the history file holds and
    whatever the store answers. *)
Theorem run_calls_at_least_threshold (cfg : Config) (w : World)
    (c : NotifyCall) :
  c ∈ notifier_calls (fst (check_steam_prices cfg w initial)) ->
  min_discount_percent cfg <= n_discount_percent c.
Proof.
  destruct (load_history (db_file w)) as [h0|e] eqn:Hload.
  - rewrite (check_steam_prices_run cfg w h0 Hload). cbn [fst].
    change (notifier_calls (record_save ?h ?s)) with (notifier_calls s).
    revert c. apply Forall_forall.
    apply (loop_invariant cfg w
             (fun s => Forall (fun c => min_discount_percent cfg
                                        <= n_discount_percent c)
                              (notifier_calls s))).
    + intros app s Hs. rewrite after_app_calls.
      apply Forall_app. split; [exact Hs|].
      unfold call_for.
      destruct (fetched _ _) as [o|]; [|constructor].
      destruct (gate _ _ _) eqn:Hg; [|constructor].
      repeat constructor. cbn. unfold gate in Hg.
      apply andb_true_iff in Hg as [_ Hg]. by apply Z.leb_le.
    + constructor.
  - rewrite (check_steam_prices_no_load cfg w e Hload). cbn.
    intros Hin. by apply elem_of_nil in Hin.
Qed.

Lemma run_calls_at_least_threshold_witness :
  10 <= n_discount_percent
          (notification "10" "Game A" "Precio reducido"
             {| current_price := 900; price_formatted := "COL$ 9.000";
                discount_percent := 50;
                original_price_formatted := "COL$ 10.000" |}).
Proof.
  refine (run_calls_at_least_threshold (config_of 10)
            (world_of (Present (Ok seen_at_1000)) 900 50) _ _).
  vm_compute. left.
Defined.

(** X8. In every run of [steam_checker.py] each call of the notifier makes
    exactly one POST, with the payload built from its arguments, when
    [DISCORD_WEBHOOK_URL] is set; when it is missing or empty no POST is made
    at all and the count of notifications sent stays 0. *)
Theorem run_posts (cfg : Config) (w : World) :
  let s' := fst (check_steam_prices cfg w initial) in
  posts s' = (if truthy (webhook_url w)
              then build_payload <$> notifier_calls s' else [])
  /\ (truthy (webhook_url w) = false -> notifications_sent s' = 0%nat).
Proof.
  intros s'. subst s'.
  destruct (load_history (db_file w)) as [h0|e] eqn:Hload.
  - rewrite (check_steam_prices_run cfg w h0 Hload). cbn [fst].
    apply (loop_invariant cfg w (posts_follow_calls w)).
    + apply posts_follow_calls_step.
    + split; [|reflexivity]. cbn. destruct (truthy _); reflexivity.
  - rewrite (check_steam_prices_no_load cfg w e Hload). cbn.
    split; [|reflexivity]. destruct (truthy _); reflexivity.
Qed.

(** ** The sink has no say in the history *)

Lemma fetched_get_result (env env' : ProductEnv) (app_id : string) :
  get_result env = get_result env' ->
  fetched env app_id = fetched env' app_id
  /\ checked env app_id = checked env' app_id.
Proof. intros H. unfold fetched, checked. rewrite H. auto. Qed.

Lemma same_but_sink_step (cfg : Config) (w w' : World)
    (app : string * string) (s s' : State) :
  same_store w w' -> contained w -> contained w' -> same_but_sink s s' ->
  same_but_sink (after_app cfg w s app) (after_app cfg w' s' app).
Proof.
  destruct app as [app_id app_name].
  intros [_ Hw] Hc1 Hc2 (Hh & Ha & Hc & Hn & Hs).
  destruct (Hw app_id) as (Hg & Ht1 & Ht2 & Ht3).
  destruct (fetched_get_result _ _ app_id Hg) as [Hfe Hch].
  destruct (after_app_fields cfg w app_id app_name s) as [Hs1 Hf].
  destruct (after_app_fields cfg w' app_id app_name s') as [Hs1' Hf'].
  cbv zeta in Hf, Hf'. rewrite <- Hfe, <- Hch in Hf'.
  unfold same_but_sink.
  destruct (fetched (oracle w app_id) app_id) as [o|].
  - destruct Hf as (E1 & E2 & E3 & E4 & _).
    destruct Hf' as (E1' & E2' & E3' & E4' & _).
    unfold aborted in E1, E1'.
    rewrite (Hc1 app_id), andb_false_r in E1.
    rewrite (Hc2 app_id), andb_false_r in E1'.
    rewrite E1, E2, E3, E4, E1', E2', E3', E4', Hs1, Hs1'.
    unfold updated_record, summary_of.
    rewrite <- Hh, <- Ha, <- Hc, <- Hn, <- Hs, <- Ht1, <- Ht2, <- Ht3.
    auto.
  - destruct Hf as (E1 & E2 & E3 & E4 & _).
    destruct Hf' as (E1' & E2' & E3' & E4' & _).
    rewrite E1, E2, E3, E4, E1', E2', E3', E4', Hs1, Hs1'.
    rewrite <- Hh, <- Ha, <- Hc, <- Hn, <- Hs. auto.
Qed.

Lemma same_but_sink_loop (cfg : Config) (w w' : World)
    (l : list (string * string)) (s s' : State) :
  same_store w w' -> contained w -> contained w' -> same_but_sink s s' ->
  same_but_sink (fold_left (after_app cfg w) l s)
                (fold_left (after_app cfg w') l s').
Proof.
  intros Hw Hc1 Hc2. revert s s'. induction l as [|a l IH]; intros s s' Hs;
    [exact Hs|].
  cbn [fold_left]. apply IH. by apply same_but_sink_step.
Qed.

(** X9. As long as no call of the notifier raises, the sink has no say in
    what [steam_checker.py] records: two runs that meet the same history
    file, the same answers of the store and the same clock, and in which
    every POST is answered or raises a [RequestException] or the URL is not
    set, end with the same history, the same [all_apps_data] and
    [apps_checked], the same calls of the notifier and the same call of
    [save_history], whether the URL is set or not and whether the POSTs
    succeed, are refused or fail. *)
Theorem sink_has_no_say (cfg : Config) (w w' : World) :
  same_store w w' ->
  contained w ->
  contained w' ->
  same_but_sink (fst (check_steam_prices cfg w initial))
                (fst (check_steam_prices cfg w' initial)).
Proof.
  intros Hw Hc1 Hc2. pose proof Hw as [Hdb _].
  destruct (load_history (db_file w)) as [h0|e] eqn:Hload.
  - rewrite (check_steam_prices_run cfg w h0 Hload).
    rewrite Hdb in Hload.
    rewrite (check_steam_prices_run cfg w' h0 Hload). cbn [fst].
    pose proof (same_but_sink_loop cfg w w' (apps cfg)
                  (set_history h0 initial) (set_history h0 initial) Hw
                  Hc1 Hc2)
      as Hl.
    destruct Hl as (Hh & Ha & Hc & Hn & Hs).
    { repeat split. }
    unfold same_but_sink. cbn. rewrite Hs, Hh. auto.
  - rewrite (check_steam_prices_no_load cfg w e Hload).
    rewrite Hdb in Hload.
    rewrite (check_steam_prices_no_load cfg w' e Hload).
    repeat split.
Qed.

Lemma sink_has_no_say_witness :
  let w := world_of (Present (Ok seen_at_1000)) 900 50 in
  same_but_sink (fst (check_steam_prices (config_of 10) w initial))
                (fst (check_steam_prices (config_of 10) (silenced w) initial)).
Proof.
  intros w.
  refine (sink_has_no_say (config_of 10) w (silenced w) _ _ _).
  - split; [reflexivity|]. intros app_id. repeat split.
  - intros app_id. unfold w, world_of. cbn.
    destruct (String.eqb app_id "10"); reflexivity.
  - intros app_id. reflexivity.
Defined.

(** With a POST that raises outside [RequestException] the sink has a say:
    same store, another sink, another history. *)
Example sink_has_a_say :
  let w := world_of (Present (Ok seen_at_1000)) 900 50 in
  let w' := long_label_world (Present (Ok seen_at_1000)) 900 50 in
  same_store w w'
  /\ history (fst (check_steam_prices (config_of 10) w initial)) !! "10"
       ≫= last_price = Some 900
  /\ history (fst (check_steam_prices (config_of 10) w' initial)) !! "10"
       ≫= last_price = Some 1000.
Proof.
  split; [|split; vm_compute; reflexivity].
  split; [reflexivity|]. intros app_id. cbn.
  destruct (String.eqb app_id "10"); repeat split.
Qed.

(** ** A price block with a missing key *)

(** [observe] raises exactly on a price block that lacks [final] or
    [final_formatted], for a product that is not free. *)
Lemma observe_raises (app_data : AppData) (e : exn) :
  observe app_data = Raise e
  <-> get (is_free app_data) false = false
      /\ exists price_info,
           price_overview app_data = Some price_info
           /\ (final price_info = None /\ e = KeyError "final"
               \/ is_Some (final price_info)
                  /\ final_formatted price_info = None
                  /\ e = KeyError "final_formatted").
Proof.
  unfold observe. destruct (get (is_free app_data) false).
  { split; [discriminate|]. intros [? _]. discriminate. }
  destruct (price_overview app_data) as [pi|].
  - destruct (final pi) as [p|] eqn:Hp.
    + destruct (final_formatted pi) as [pf|] eqn:Hpf.
      * split; [discriminate|].
        intros (_ & pi' & [= <-] & [[? _]|(_ & ? & _)]); congruence.
      * split.
        -- intros [= <-]. split; [reflexivity|]. exists pi.
           split; [reflexivity|]. right. rewrite Hp. eauto.
        -- intros (_ & pi' & [= <-] & [[? _]|(_ & _ & ->)]);
             [congruence|reflexivity].
    + split.
      * intros [= <-]. split; [reflexivity|]. exists pi. auto.
      * intros (_ & pi' & [= <-] & [[_ ->]|([? ?] & _)]);
          [reflexivity|congruence].
  - split; [discriminate|]. intros (_ & pi & ? & _). discriminate.
Qed.

(** X10. A product whose response is successful and whose price block lacks
    [final] or [final_formatted], and that is not free: the [KeyError] is
    taken at the boundary of the loop, the product counts in [apps_checked],
    and neither the history nor [all_apps_data] gets anything for it, nor is
    the notifier called, whatever discount the block announces. *)
Theorem price_block_without_price (cfg : Config) (w : World)
    (app_id app_name : string) (s : State)
    (body : gmap string AppEntry) (app_data : AppData)
    (price_info : PriceInfo) :
  get_result (oracle w app_id) = GetJson body ->
  body !! app_id = Some {| success := Some true; data := Some app_data |} ->
  get (is_free app_data) false = false ->
  price_overview app_data = Some price_info ->
  final price_info = None \/ final_formatted price_info = None ->
  let s' := after_app cfg w s (app_id, app_name) in
  process_app cfg w (app_id, app_name) s = (s', Ok tt)
  /\ apps_checked s' = S (apps_checked s)
  /\ history s' = history s
  /\ all_apps_data s' = all_apps_data s
  /\ notifier_calls s' = notifier_calls s
  /\ notifications_sent s' = notifications_sent s.
Proof.
  intros Hget Hbody Hfree Hpo Hmiss s'. subst s'.
  split; [apply process_app_returns|].
  assert (Hobs : exists e, observe app_data = Raise e).
  { destruct Hmiss as [Hf|Hff].
    - exists (KeyError "final"). apply observe_raises.
      split; [exact Hfree|]. exists price_info. auto.
    - destruct (final price_info) as [p|] eqn:Hp.
      + exists (KeyError "final_formatted"). apply observe_raises.
        split; [exact Hfree|]. exists price_info.
        split; [exact Hpo|]. right. rewrite Hp. eauto.
      + exists (KeyError "final"). apply observe_raises.
        split; [exact Hfree|]. exists price_info. auto. }
  destruct Hobs as [e He].
  assert (Hfe : fetched (oracle w app_id) app_id = None).
  { unfold fetched. rewrite Hget. unfold app_data_of. rewrite Hbody. cbn.
    rewrite He. reflexivity. }
  assert (Hch : checked (oracle w app_id) app_id = true).
  { unfold checked. rewrite Hget. unfold app_data_of. rewrite Hbody.
    reflexivity. }
  destruct (after_app_fields cfg w app_id app_name s) as [_ Hf].
  cbv zeta in Hf. rewrite Hfe, Hch in Hf.
  destruct Hf as (H1 & H2 & H3 & H4 & _ & H6).
  rewrite H1, H2, H3, H4, H6. repeat split. lia.
Qed.

Lemma price_block_without_price_witness :
  let w := {| webhook_url := Some "https://discord.example/api/webhooks/1";
              db_file := Absent; save_result := None;
              oracle := fun _ =>
                {| get_result := no_final "10" 90;
                   post_result := PostStatus 204;
                   now_checked := ""; now_notified := "";
                   now_updated := "" |} |} in
  let s' := after_app (config_of 10) w initial ("10", "Game A") in
  process_app (config_of 10) w ("10", "Game A") initial = (s', Ok tt)
  /\ apps_checked s' = S (apps_checked initial)
  /\ history s' = history initial
  /\ all_apps_data s' = all_apps_data initial
  /\ notifier_calls s' = notifier_calls initial
  /\ notifications_sent s' = notifications_sent initial.
Proof.
  intros w.
  refine (price_block_without_price (config_of 10) w "10" "Game A" initial
            _ _ _ _ _ _ _ _).
  - reflexivity.
  - vm_compute. reflexivity.
  - reflexivity.
  - reflexivity.
  - left. reflexivity.
Defined.

(** ** Dicts *)

Section Dict.

Context {V : Type}.
Implicit Types (d a b : list (string * V)) (k : string) (v : V).

Lemma dict_get_None k d : k ∉ d.*1 -> dict_get k d = None.
Proof.
  induction d as [|[k' v'] d IH]; intros Hk; [reflexivity|].
  cbn in Hk. apply not_elem_of_cons in Hk as [Hne Hk]. cbn.
  destruct (String.eqb_spec k' k); [congruence|]. by apply IH.
Qed.

Lemma dict_get_set_eq k v d : dict_get k (dict_set k v d) = Some v.
Proof.
  induction d as [|[k' v'] d IH]; cbn.
  - by rewrite String.eqb_refl.
  - destruct (String.eqb_spec k' k) as [->|Hne]; cbn.
    + by rewrite String.eqb_refl.
    + destruct (String.eqb_spec k' k); [congruence|]. exact IH.
Qed.

Lemma dict_get_set_ne k k' v d :
  k <> k' -> dict_get k' (dict_set k v d) = dict_get k' d.
Proof.
  intros Hne. induction d as [|[k0 v0] d IH]; cbn.
  - destruct (String.eqb_spec k k'); [congruence|reflexivity].
  - destruct (String.eqb_spec k0 k) as [->|Hk]; cbn.
    + destruct (String.eqb_spec k k'); [congruence|reflexivity].
    + destruct (String.eqb_spec k0 k'); [reflexivity|exact IH].
Qed.

(** Setting a key keeps the keys as they are, or adds the key at the end. *)
Lemma dict_set_keys k v d :
  (dict_set k v d).*1 = d.*1 /\ k ∈ d.*1
  \/ (dict_set k v d).*1 = (d.*1 ++ [k])%list /\ k ∉ d.*1.
Proof.
  induction d as [|[k' v'] d IH]; cbn.
  - right. split; [reflexivity|]. apply not_elem_of_nil.
  - destruct (String.eqb_spec k' k) as [->|Hne]; cbn.
    + left. split; [reflexivity|]. left.
    + destruct IH as [[-> Hin]|[-> Hout]].
      * left. split; [reflexivity|]. by right.
      * right. split; [reflexivity|].
        apply not_elem_of_cons. split; [congruence|exact Hout].
Qed.

Lemma dict_set_NoDup k v d : NoDup d.*1 -> NoDup (dict_set k v d).*1.
Proof.
  intros Hnd. destruct (dict_set_keys k v d) as [[-> _]|[-> Hout]];
    [exact Hnd|].
  apply NoDup_app. split; [exact Hnd|]. split.
  - intros x Hx Hx'. apply list_elem_of_singleton in Hx'. congruence.
  - apply NoDup_singleton.
Qed.

Lemma dict_merge_NoDup a b : NoDup a.*1 -> NoDup (dict_merge a b).*1.
Proof.
  unfold dict_merge. revert a.
  induction b as [|[k v] b IH]; intros a Ha; [exact Ha|].
  cbn [fold_left]. apply IH. by apply dict_set_NoDup.
Qed.

Lemma dict_merge_prefix a b : a.*1 `prefix_of` (dict_merge a b).*1.
Proof.
  unfold dict_merge. revert a.
  induction b as [|[k v] b IH]; intros a; [reflexivity|].
  cbn [fold_left]. etrans; [|apply IH]. cbn [fst snd].
  destruct (dict_set_keys k v a) as [[-> _]|[-> _]];
    [reflexivity|by apply prefix_app_r].
Qed.

(** A key of the second dict wins; a key that only the first has stays. *)
Lemma dict_get_merge k a b :
  NoDup b.*1 ->
  dict_get k (dict_merge a b) = overridden (dict_get k b) (dict_get k a).
Proof.
  unfold dict_merge. revert a.
  induction b as [|[k' v'] b IH]; intros a Hb; [reflexivity|].
  cbn in Hb. apply NoDup_cons in Hb as [Hfresh Hb].
  cbn [fold_left fst snd]. rewrite IH by exact Hb. cbn [dict_get].
  destruct (String.eqb_spec k' k) as [->|Hne].
  - rewrite (dict_get_None k b Hfresh). cbn. apply dict_get_set_eq.
  - rewrite dict_get_set_ne by exact Hne. reflexivity.
Qed.

End Dict.

(** ** The configuration *)

(** [load_config] returns, and returns [config_of_file]. *)
Lemma load_config_run {St} (f : ConfigFile) (s : St) :
  load_config f s = (s, Ok (config_of_file f)).
Proof.
  unfold load_config, try_except, bind, lift, ret.
  destruct f as [|[u|e]]; cbn [config_of_file]; try reflexivity.
  cbn [pick_handler].
  destruct (caught_by [JSONDecodeErrorClass] e); reflexivity.
Qed.

(** X11. [load_config] never raises: without a file, and whatever reading
    the file raises (malformed JSON, no permission, bytes that are not valid
    text, anything else), it returns the built-in defaults; a file that
    parses gives the merge of the defaults with it. *)
Theorem load_config_never_raises {St} (f : ConfigFile) (s : St) :
  exists config,
    load_config f s = (s, Ok config)
    /\ (f = NoConfig -> config = default_config)
    /\ (forall e, f = ConfigRead (Raise e) -> config = default_config)
    /\ (forall user_config, f = ConfigRead (Ok user_config) ->
          config = merged user_config).
Proof.
  exists (config_of_file f). split; [apply load_config_run|].
  repeat split.
  - intros ->. reflexivity.
  - intros e ->. reflexivity.
  - intros u ->. reflexivity.
Qed.

(** X12. The products of a configuration file are merged into the built-in
    ones, not put in their place: the dict that [load_config] returns has
    every built-in id, first and in the built-in order, then the new ids of
    the file; an id of the file has the name the file gives it and a
    built-in id that the file does not mention keeps its built-in name; and
    no id occurs twice. *)
Theorem load_config_merges_apps {St} (user_config : ConfigJson)
    (user_apps : list (string * string)) (s : St) :
  c_apps user_config = Some user_apps ->
  NoDup user_apps.*1 ->
  exists config merged_apps,
    load_config (ConfigRead (Ok user_config)) s = (s, Ok config)
    /\ c_apps config = Some merged_apps
    /\ NoDup merged_apps.*1
    /\ ["1085660"; "1090150"] `prefix_of` merged_apps.*1
    /\ forall app_id,
         dict_get app_id merged_apps
         = overridden (dict_get app_id user_apps)
             (dict_get app_id [("1085660", "Destiny 2 (Base)");
                               ("1090150", "Destiny 2: Forsaken Pack")]).
Proof.
  intros Hu Hnd. do 2 eexists. split; [apply load_config_run|].
  cbn [config_of_file merged c_apps]. rewrite Hu.
  split; [reflexivity|]. cbn [default_config c_apps get].
  split; [|split].
  - apply dict_merge_NoDup. apply (bool_decide_unpack _). vm_compute.
    reflexivity.
  - apply (dict_merge_prefix
             [("1085660", "Destiny 2 (Base)");
              ("1090150", "Destiny 2: Forsaken Pack")] user_apps).
  - intros app_id. by apply dict_get_merge.
Qed.

Lemma load_config_merges_apps_witness :
  exists config merged_apps,
    load_config
      (ConfigRead (Ok {| c_apps := Some [("730", "Counter-Strike 2");
                                         ("1085660", "Destiny 2")];
                         c_region := None; c_language := None;
                         c_check_interval_hours := None;
                         c_notifications := None |})) tt
    = (tt, Ok config)
    /\ c_apps config = Some merged_apps
    /\ NoDup merged_apps.*1
    /\ ["1085660"; "1090150"] `prefix_of` merged_apps.*1
    /\ forall app_id,
         dict_get app_id merged_apps
         = overridden (dict_get app_id [("730", "Counter-Strike 2");
                                        ("1085660", "Destiny 2")])
             (dict_get app_id [("1085660", "Destiny 2 (Base)");
                               ("1090150", "Destiny 2: Forsaken Pack")]).
Proof.
  refine (load_config_merges_apps _ _ tt _ _).
  - reflexivity.
  - apply (bool_decide_unpack _). vm_compute. reflexivity.
Defined.

Example merged_apps_order :
  c_apps (merged {| c_apps := Some [("730", "Counter-Strike 2");
                                    ("1085660", "Destiny 2")];
                    c_region := None; c_language := None;
                    c_check_interval_hours := None;
                    c_notifications := None |})
  = Some [("1085660", "Destiny 2"); ("1090150", "Destiny 2: Forsaken Pack");
          ("730", "Counter-Strike 2")].
Proof. reflexivity. Qed.

(** ** The settings and the exit code *)

(** The dict that [load_config] returns has the four top-level keys. *)
Lemma config_of_file_keys (f : ConfigFile) :
  is_Some (c_apps (config_of_file f))
  /\ is_Some (c_region (config_of_file f))
  /\ is_Some (c_language (config_of_file f))
  /\ is_Some (c_notifications (config_of_file f)).
Proof.
  destruct f as [|[u|e]]; cbn; try (repeat split; eauto).
  - destruct (c_apps u); eauto.
  - destruct (c_region u); cbn; eauto.
  - destruct (c_language u); cbn; eauto.
  - destruct (c_notifications u); cbn; eauto.
Qed.

(** A [notifications] object without the threshold leaves the settings
    without it. *)
Lemma settings_without_threshold (user_config : ConfigJson)
    (notifications : Notifications) :
  c_notifications user_config = Some notifications ->
  nt_min_discount_percent notifications = None ->
  settings (config_of_file (ConfigRead (Ok user_config)))
  = Raise (KeyError "min_discount_percent").
Proof.
  intros Hu Hm.
  destruct (config_of_file_keys (ConfigRead (Ok user_config)))
    as ([a Ha] & [r Hr] & [l Hl] & _).
  unfold settings. rewrite Ha, Hr, Hl. cbn [item].
  cbn [config_of_file merged c_notifications]. rewrite Hu. cbn.
  rewrite Hm. reflexivity.
Qed.

(** X13. The [notifications] of a configuration file take the place of the
    built-in ones as a whole: on the dict that [load_config] returns, the
    settings that [check_steam_prices] reads are all there, except that
    [min_discount_percent] is missing, and reading it raises [KeyError],
    exactly when the file has a [notifications] object without that key. *)
Theorem settings_of_loaded_config (f : ConfigFile) :
  (forall e, settings (config_of_file f) = Raise e ->
             e = KeyError "min_discount_percent")
  /\ ((exists e, settings (config_of_file f) = Raise e)
      <-> exists user_config notifications,
            f = ConfigRead (Ok user_config)
            /\ c_notifications user_config = Some notifications
            /\ nt_min_discount_percent notifications = None).
Proof.
  destruct (config_of_file_keys f) as ([a Ha] & [r Hr] & [l Hl] & [n Hn]).
  assert (Hs : settings (config_of_file f)
               = match nt_min_discount_percent n with
                 | Some m => Ok {| apps := a; region := r; language := l;
                                   min_discount_percent := m |}
                 | None => Raise (KeyError "min_discount_percent")
                 end).
  { unfold settings. rewrite Ha, Hr, Hl, Hn. cbn.
    destruct (nt_min_discount_percent n); reflexivity. }
  rewrite Hs. split.
  - intros e. destruct (nt_min_discount_percent n); [discriminate|].
    by intros [= <-].
  - split.
    + intros [e He].
      destruct (nt_min_discount_percent n) eqn:Hm; [discriminate|].
      destruct f as [|[u|e']]; cbn in Hn; try (injection Hn as <-; discriminate).
      exists u. destruct (c_notifications u) as [n'|]; cbn in Hn.
      * injection Hn as ->. eauto.
      * injection Hn as <-. discriminate.
    + intros (u & n' & -> & Hu & Hm). cbn in Hn. rewrite Hu in Hn.
      cbn in Hn. injection Hn as <-. rewrite Hm. eauto.
Qed.

(** When the settings are there, [check_steam_prices] on the dict is
    [check_steam_prices] on the settings. *)
Lemma check_steam_prices_on_settings (config : ConfigJson) (cfg : Config)
    (w : World) (s : State) :
  settings config = Ok cfg ->
  check_steam_prices_on config w s = check_steam_prices cfg w s.
Proof.
  intros Hs. unfold check_steam_prices_on, check_steam_prices, bind, lift.
  rewrite Hs. destruct (load_history (db_file w)); reflexivity.
Qed.

(** When they are not, the history is loaded and nothing else is done. *)
Lemma check_steam_prices_on_no_settings (config : ConfigJson) (e : exn)
    (w : World) :
  settings config = Raise e ->
  check_steam_prices_on config w initial
  = match load_history (db_file w) with
    | Ok h => (set_history h initial, Raise e)
    | Raise e' => (initial, Raise e')
    end.
Proof.
  intros Hs. unfold check_steam_prices_on, bind, lift, modify.
  rewrite Hs. destruct (load_history (db_file w)); reflexivity.
Qed.

(** X14. [main] of [steam_checker.py] never raises and returns 0 or 1, and
    an exit code of 0 vouches for the run: it is returned only when the
    history loaded, the configuration had its [min_discount_percent] and
    writing the history raised nothing outside [IOError].  A history file
    that does not load, a missing threshold and a write that raises outside
    [IOError] each give 1. *)
Theorem main_exit_code (f : ConfigFile) (w : World) :
  exists s' code,
    main f w initial = (s', Ok code)
    /\ (code = 0 \/ code = 1)
    /\ (code = 0 ->
        (exists h0, load_history (db_file w) = Ok h0)
        /\ (exists cfg, settings (config_of_file f) = Ok cfg)
        /\ (forall e, save_result w = Some e -> isinstance e IOError = true)).
Proof.
  unfold main, bind. rewrite load_config_run.
  destruct (config_of_file_keys f) as ([a Ha] & [r Hr] & [l Hl] & _).
  unfold lift. rewrite Ha, Hr, Hl. cbn [item]. unfold try_except, bind.
  destruct (settings (config_of_file f)) as [cfg|e] eqn:Hs.
  - rewrite (check_steam_prices_on_settings _ cfg w initial Hs).
    destruct (load_history (db_file w)) as [h0|e] eqn:Hload.
    + rewrite (check_steam_prices_run cfg w h0 Hload).
      destruct (save_result w) as [e|] eqn:Hsave.
      * destruct (isinstance e IOError) eqn:Hio.
        -- do 2 eexists. split; [reflexivity|]. split; [auto|].
           intros _. split; [eauto|]. split; [eauto|].
           intros e' [= <-]. exact Hio.
        -- do 2 eexists. split; [reflexivity|]. split; [auto|].
           discriminate.
      * do 2 eexists. split; [reflexivity|]. split; [auto|].
        intros _. split; [eauto|]. split; [eauto|].
        discriminate.
    + rewrite (check_steam_prices_no_load cfg w e Hload).
      do 2 eexists. split; [reflexivity|]. split; [auto|]. discriminate.
  - rewrite (check_steam_prices_on_no_settings _ e w Hs).
    destruct (load_history (db_file w)) as [h0|e'];
      (do 2 eexists; split; [reflexivity|]; split; [auto|]; discriminate).
Qed.

(** X15. A configuration file whose [notifications] object has no
    [min_discount_percent] makes the run end with exit code 1 before the
    first product: nothing is fetched, no notifier is called and
    [save_history] is not called. *)
Theorem notifications_without_threshold (user_config : ConfigJson)
    (notifications : Notifications) (w : World) :
  c_notifications user_config = Some notifications ->
  nt_min_discount_percent notifications = None ->
  exists s',
    main (ConfigRead (Ok user_config)) w initial = (s', Ok 1)
    /\ apps_checked s' = 0%nat
    /\ all_apps_data s' = ∅
    /\ notifier_calls s' = []
    /\ posts s' = []
    /\ save_calls s' = [].
Proof.
  intros Hu Hm.
  set (f := ConfigRead (Ok user_config)).
  pose proof (settings_without_threshold user_config notifications Hu Hm)
    as He.
  fold f in He. set (e := KeyError "min_discount_percent") in He.
  unfold main, bind. rewrite load_config_run.
  destruct (config_of_file_keys f) as ([a Ha] & [r Hr] & [l Hl] & _).
  unfold lift. rewrite Ha, Hr, Hl. cbn [item]. unfold try_except, bind.
  rewrite (check_steam_prices_on_no_settings _ e w He).
  destruct (load_history (db_file w)) as [h0|e'];
    (eexists; split; [reflexivity|]; cbn; auto 10).
Qed.

Lemma notifications_without_threshold_witness :
  exists s',
    main (ConfigRead (Ok {| c_apps := None; c_region := None;
                            c_language := None;
                            c_check_interval_hours := None;
                            c_notifications :=
                              Some {| nt_min_discount_percent := None;
                                      nt_only_notify_on_discount :=
                                        Some false |} |}))
         (world_of Absent 900 50) initial = (s', Ok 1)
    /\ apps_checked s' = 0%nat
    /\ all_apps_data s' = ∅
    /\ notifier_calls s' = []
    /\ posts s' = []
    /\ save_calls s' = [].
Proof.
  refine (notifications_without_threshold _ _ (world_of Absent 900 50) _ _);
    reflexivity.
Defined.

(** ** The loop of api-steam.py *)

(** The two scripts find the observation in the same way. *)
Lemma api_steam_same_observation :
  ApiSteam.app_data_of = app_data_of /\ ApiSteam.observe = observe.
Proof. split; reflexivity. Qed.


Section ApiLoop.

Variable w : ApiSteam.World.







End ApiLoop.







(** ** The two scripts on the same run *)







(** ** The report *)

Section Sorted.

Context {A : Type} (key : A -> Z).

Lemma insert_desc_Permutation (x : A) (l : list A) :
  insert_desc key x l ≡ₚ x :: l.
Proof.
  induction l as [|y l IH]; cbn; [reflexivity|].
  destruct (key x <? key y); [|reflexivity].
  rewrite IH. apply Permutation_swap.
Qed.

Lemma sorted_desc_Permutation (l : list A) : sorted_desc key l ≡ₚ l.
Proof.
  induction l as [|x l IH]; cbn; [reflexivity|].
  rewrite insert_desc_Permutation. by rewrite IH.
Qed.

Lemma insert_desc_sorted (x : A) (l : list A) :
  StronglySorted (fun a b => key b <= key a) l ->
  StronglySorted (fun a b => key b <= key a) (insert_desc key x l).
Proof.
  induction 1 as [|y l Hl IH Hy]; cbn.
  - repeat constructor.
  - destruct (Z.ltb_spec (key x) (key y)).
    + constructor; [exact IH|].
      rewrite insert_desc_Permutation. constructor; [lia|exact Hy].
    + constructor; [by constructor|].
      constructor; [lia|].
      eapply Forall_impl; [exact Hy|]. cbn. intros z Hz. lia.
Qed.

Lemma sorted_desc_sorted (l : list A) :
  StronglySorted (fun a b => key b <= key a) (sorted_desc key l).
Proof.
  induction l as [|x l IH]; cbn; [constructor|].
  by apply insert_desc_sorted.
Qed.

Lemma insert_desc_filter (k : Z) (x : A) (l : list A) :
  filter (fun a => key a = k) (insert_desc key x l)
  = filter (fun a => key a = k) (x :: l).
Proof.
  induction l as [|y l IH]; cbn [insert_desc]; [reflexivity|].
  destruct (Z.ltb_spec (key x) (key y)); [|reflexivity].
  rewrite filter_cons, IH, !filter_cons.
  destruct (stdpp.base.decide (key y = k)), (stdpp.base.decide (key x = k));
    try reflexivity. lia.
Qed.

Lemma sorted_desc_stable (k : Z) (l : list A) :
  filter (fun a => key a = k) (sorted_desc key l)
  = filter (fun a => key a = k) l.
Proof.
  induction l as [|x l IH]; cbn [sorted_desc fold_right]; [reflexivity|].
  rewrite insert_desc_filter, !filter_cons.
  change (fold_right (insert_desc key) [] l) with (sorted_desc key l).
  by rewrite IH.
Qed.

End Sorted.

Lemma report_line_sorted (l : list (string * AppSummary)) :
  StronglySorted
    (fun a b => s_discount_percent b.2 <= s_discount_percent a.2) l ->
  StronglySorted (fun a b => r_discount b <= r_discount a) (report_line <$> l).
Proof.
  induction 1 as [|x l Hl IH Hx]; cbn; constructor; [exact IH|].
  apply Forall_fmap. eapply Forall_impl; [exact Hx|]. intros y Hy. exact Hy.
Qed.

Lemma report_line_filter (k : Z) (l : list (string * AppSummary)) :
  filter (fun a => r_discount a = k) (report_line <$> l)
  = report_line <$> filter (fun item => s_discount_percent item.2 = k) l.
Proof.
  induction l as [|x l IH]; [reflexivity|].
  rewrite fmap_cons, !filter_cons, IH. cbn [report_line r_discount].
  destruct (stdpp.base.decide (s_discount_percent x.2 = k)); reflexivity.
Qed.

Lemma marked_lines_count (l : list (string * AppSummary)) :
  length (filter (fun a => r_mark a = "🔥") (report_line <$> l))
  = length (List.filter (fun item => 0 <? s_discount_percent item.2) l).
Proof.
  induction l as [|x l IH]; [reflexivity|].
  rewrite fmap_cons, filter_cons. cbn [List.filter report_line r_mark].
  destruct (0 <? s_discount_percent x.2).
  - rewrite decide_True by reflexivity. cbn. by rewrite IH.
  - rewrite decide_False by discriminate. exact IH.
Qed.

(** X18. The list of prices that [generate_report] logs has one line for
    each item of [all_apps_data], the largest discount first, items with the
    same discount in the order of the dict; and the count it announces as
    [Con descuento] is the number of lines that carry the mark. *)
Theorem report_lines_in_order (items : list (string * AppSummary))
    (apps_checked notifications_sent : nat) :
  let r := generate_report items apps_checked notifications_sent in
  r_lines r ≡ₚ report_line <$> items
  /\ StronglySorted (fun a b => r_discount b <= r_discount a) (r_lines r)
  /\ (forall k,
        filter (fun a => r_discount a = k) (r_lines r)
        = filter (fun a => r_discount a = k) (report_line <$> items))
  /\ r_with_discount r
     = length (filter (fun a => r_mark a = "🔥") (r_lines r))
  /\ r_total r = length (r_lines r).
Proof.
  intros r. subst r. cbn [generate_report r_lines r_with_discount r_total].
  split; [|split; [|split; [|split]]].
  - by rewrite sorted_desc_Permutation.
  - apply report_line_sorted.
    apply (sorted_desc_sorted (fun item => s_discount_percent item.2)).
  - intros k. rewrite !report_line_filter.
    by rewrite (sorted_desc_stable (fun item => s_discount_percent item.2)).
  - rewrite <- marked_lines_count.
    apply Permutation_length.
    by rewrite sorted_desc_Permutation.
  - rewrite length_fmap. apply Permutation_length.
    by rewrite sorted_desc_Permutation.
Qed.

Example report_of_three :
  r_name <$> r_lines (generate_report
    [("1", {| s_name := "A"; s_current_price := 100;
              s_price_formatted := "1"; s_original_price_formatted := "1";
              s_discount_percent := 0; s_last_checked := "" |});
     ("2", {| s_name := "B"; s_current_price := 50;
              s_price_formatted := "2"; s_original_price_formatted := "4";
              s_discount_percent := 50; s_last_checked := "" |});
     ("3", {| s_name := "C"; s_current_price := 0;
              s_price_formatted := "Gratis";
              s_original_price_formatted := "Gratis";
              s_discount_percent := 100; s_last_checked := "" |});
     ("4", {| s_name := "D"; s_current_price := 10;
              s_price_formatted := "3"; s_original_price_formatted := "6";
              s_discount_percent := 50; s_last_checked := "" |})] 4 2)
  = ["C"; "B"; "D"; "A"].
Proof. reflexivity. Qed.

(** ** More on the rules *)

(** X19. With a positive threshold and a record that holds both numbers, a
    rule of [steam_checker.py] matches exactly when the price is under the
    stored one or the discount above the stored one: a price that rises or
    stays, with a discount that falls or stays, matches nothing, however
    large the discount is. *)
Theorem rule_matches_iff_better (T current_price discount_percent lp ld : Z)
    (r : HistoryRecord) :
  0 < T ->
  last_price r = Some lp ->
  last_discount r = Some ld ->
  fst (decide T (Some r) current_price discount_percent) = true
  <-> current_price < lp \/ ld < discount_percent.
Proof.
  intros HT Hp Hd. unfold decide, get_last_price, lt_ext, get.
  rewrite Hp, Hd.
  destruct (Z.ltb_spec current_price lp); cbn [fst]; [tauto|].
  destruct (Z.ltb_spec ld discount_percent); cbn [fst]; [tauto|].
  destruct (Z.leb_spec T discount_percent), (Z.eqb_spec ld 0); cbn;
    split; try discriminate; try lia.
Qed.

Lemma rule_matches_iff_better_witness :
  fst (decide 10 (seen_at_1000 !! "10") 1200 0) = true
  <-> 1200 < 1000 \/ 0 < 0.
Proof.
  refine (rule_matches_iff_better 10 1200 0 1000 0 _ _ _ _).
  - lia.
  - reflexivity.
  - reflexivity.
Defined.

(** X20. The colours of the two scripts: the same for every discount, except
    from 25 to 49, where [steam_checker.py] has yellow and [api-steam.py],
    which has no such tier, red. *)
Theorem colors_of_the_two_scripts (discount_percent : Z) :
  (25 <= discount_percent < 50 ->
   color discount_percent = 0xffff00
   /\ ApiSteam.color discount_percent = 0xff0000)
  /\ (~ 25 <= discount_percent < 50 ->
      ApiSteam.color discount_percent = color discount_percent).
Proof.
  unfold color, ApiSteam.color.
  destruct (Z.leb_spec 75 discount_percent),
           (Z.leb_spec 50 discount_percent),
           (Z.leb_spec 25 discount_percent); split; intros; try split;
    try reflexivity; lia.
Qed.

(** ** What is reported is what is saved *)



(** ** Two runs in a row *)




(** After a run in which the notifier raised, the record is the old one and
    the next run calls the notifier again. *)
Example second_run_calls_again :
  let cfg := config_of 10 in
  let w := long_label_world (Present (Ok seen_at_1000)) 900 50 in
  let w2 := long_label_world
              (Present (Ok (history (fst (check_steam_prices cfg w initial)))))
              900 50 in
  length (notifier_calls (fst (check_steam_prices cfg w initial))) = 1%nat
  /\ length (notifier_calls (fst (check_steam_prices cfg w2 initial))) = 1%nat.
Proof. vm_compute. split; reflexivity. Qed.
